(** * The forecasting pipeline of [Pages/ensamblado.py]

    A shallow embedding of the data preparation, feature selection, split,
    ensembling and scoring steps of [generate_predictions], and the
    properties of them that the design document states.

    Conventions of the embedding.
    - A float64 value is a real number ([R]); a missing value (NaN, the
      [null] of the CSV) is [None].  Rounding of the value arithmetic is not
      modelled; the one place where the code truncates a float product to an
      integer, [int(len(X) * 0.8)], is modelled bit for bit (module
      [Float64]).
    - A pandas [DataFrame] is its column names, its row labels and its rows;
      a [Series] is its row labels and its values.
    - A Python exception is a [Raise] in the [result] type.
    - What scikit-learn and Keras compute numerically (the F statistic, the
      mutual information estimate, the fitted SVR and LSTM) is a parameter of
      the development; what they check about shapes before computing is
      written out. *)

From Stdlib Require Import String List ZArith Reals Lra Lia Bool Arith.
From Stdlib Require Import Permutation Sorted.
From Corelib Require Import SpecFloat.
Import ListNotations.

Set Implicit Arguments.

(** ** Exceptions *)

Inductive exn : Type :=
| ValueError
| KeyError.

Inductive result (A : Type) : Type :=
| Ok (a : A)
| Raise (e : exn).

Arguments Ok {A} a.
Arguments Raise {A} e.

Definition bind {A B : Type} (r : result A) (k : A -> result B) : result B :=
  match r with
  | Ok a => k a
  | Raise e => Raise e
  end.

Notation "x <- r ;; k" := (bind r (fun x => k))
  (at level 61, r at next level, right associativity).
Notation "' p <- r ;; k" := (bind r (fun x => match x with p => k end))
  (at level 61, p pattern, r at next level, right associativity).

Definition is_ok {A : Type} (r : result A) : bool :=
  match r with Ok _ => true | Raise _ => false end.

(** ** Frames and series *)

(** A float cell: [None] is NaN. *)
Definition cell : Type := option R.

(** Dates are the ISO strings of the CSV, whose order is the calendar's; they
    are modelled by the day number. *)
Definition date : Type := Z.

Record Series (A : Type) : Type := mkSeries {
  s_index : list nat;
  s_values : list A
}.

Record DataFrame : Type := mkDataFrame {
  columns : list string;
  index : list nat;
  values : list (list cell)
}.

(** [len(data)] *)
Definition len (d : DataFrame) : nat := length (values d).


Definition RangeIndex (n : nat) : list nat := seq 0 n.

(** ** [clean_data] *)

Definition isna (c : cell) : bool :=
  match c with None => true | Some _ => false end.

Definition row_has_na (r : list cell) : bool := existsb isna r.

Definition keep_row (ir : nat * list cell) : bool := negb (row_has_na (snd ir)).

(** [data.dropna()]: the rows with no missing value, under their labels. *)
Definition dropna (d : DataFrame) : DataFrame :=
  let kept := filter keep_row (combine (index d) (values d)) in
  mkDataFrame (columns d) (map fst kept) (map snd kept).

Definition clean_data (data : DataFrame) : DataFrame := dropna data.

(** A frame with no missing value. *)
Definition no_na (d : DataFrame) : Prop :=
  forall r, In r (values d) -> row_has_na r = false.

(** ** [normalize_data]: scikit-learn's [MinMaxScaler], feature range (0, 1) *)

Local Open Scope R_scope.

(** [np.nanmin] and [np.nanmax] of a column: NaN is skipped. *)
Fixpoint nanmin (c : list cell) : cell :=
  match c with
  | [] => None
  | None :: c' => nanmin c'
  | Some x :: c' =>
      match nanmin c' with
      | None => Some x
      | Some m => Some (Rmin x m)
      end
  end.

Fixpoint nanmax (c : list cell) : cell :=
  match c with
  | [] => None
  | None :: c' => nanmax c'
  | Some x :: c' =>
      match nanmax c' with
      | None => Some x
      | Some m => Some (Rmax x m)
      end
  end.

(** [np.finfo(np.float64).eps] *)
Definition eps : R := / 2 ^ 52.

(** [_handle_zeros_in_scale]: a (nearly) constant column is scaled by 1. *)
Definition handle_zeros_in_scale (scale : R) : R :=
  if Rlt_dec scale (10 * eps) then 1 else scale.

(** What [fit] keeps of one column. *)
Record ColumnScale : Type := mkColumnScale {
  data_min_ : R;
  data_max_ : R;
  scale_ : R;
  min_ : R
}.

(** [fit] on one column; an all-NaN column has NaN parameters ([None]). *)
Definition fit_column (c : list cell) : option ColumnScale :=
  match nanmin c, nanmax c with
  | Some lo, Some hi =>
      let data_range := hi - lo in
      let scale := (1 - 0) / handle_zeros_in_scale data_range in
      Some (mkColumnScale lo hi scale (0 - lo * scale))
  | _, _ => None
  end.

Local Close Scope R_scope.

(** Column [j] of a row-major array; a short row reads as NaN. *)
Definition column_values (j : nat) (rows : list (list cell)) : list cell :=
  map (fun r => nth j r None) rows.

Definition MinMaxScaler : Type := list (option ColumnScale).

Definition fit (ncols : nat) (rows : list (list cell)) : MinMaxScaler :=
  map (fun j => fit_column (column_values j rows)) (seq 0 ncols).

(** [X *= scale_; X += min_]; NaN stays NaN. *)
Definition transform_cell (p : option ColumnScale * cell) : cell :=
  match p with
  | (Some sc, Some x) => Some (x * scale_ sc + min_ sc)%R
  | _ => None
  end.

Definition transform (scaler : MinMaxScaler) (rows : list (list cell))
  : list (list cell) :=
  map (fun r => map transform_cell (combine scaler r)) rows.

(** [scaler.fit_transform(data)] refuses an array with no row or no column;
    the scaled array gets the column names back and a fresh [RangeIndex]. *)
Definition normalize_data (data : DataFrame) : result (DataFrame * MinMaxScaler) :=
  if (len data =? 0)%nat || (length (columns data) =? 0)%nat then Raise ValueError
  else
    let scaler := fit (length (columns data)) (values data) in
    let data_scaled := transform scaler (values data) in
    Ok (mkDataFrame (columns data) (RangeIndex (len data)) data_scaled, scaler).

(** ** [int(len(X) * 0.8)] on binary64 *)

Module Float64.

(** A non-negative finite binary64 value is [m * 2 ^ e], with [m] of at most
    53 bits; the exponent range plays no role for the values met here. *)
Definition float : Type := (Z * Z)%type.

Definition prec : Z := 53.

Definition digits (m : Z) : Z := if (m =? 0)%Z then 0%Z else (Z.log2 m + 1)%Z.

(** Rounding to nearest, ties to even, of [m * 2 ^ e] to [prec] bits. *)
Definition round_ne (m e : Z) : float :=
  let d := digits m in
  if (d <=? prec)%Z then (m, e)
  else
    let s := (d - prec)%Z in
    let q := Z.shiftr m s in
    let r := (m mod 2 ^ s)%Z in
    let half := (2 ^ (s - 1))%Z in
    let q' := if (r <? half)%Z then q
              else if (half <? r)%Z then (q + 1)%Z
              else if Z.even q then q else (q + 1)%Z in
    (q', (e + s)%Z).

(** [float(n)] *)
Definition of_int (n : Z) : float := round_ne n 0.

(** [x * y] *)
Definition mul (x y : float) : float :=
  round_ne (fst x * fst y) (snd x + snd y).

(** [int(x)] *)
Definition trunc (x : float) : Z :=
  if (0 <=? snd x)%Z then (fst x * 2 ^ snd x)%Z else (fst x / 2 ^ (- snd x))%Z.

(** The literal [0.8]: 0x1.999999999999ap-1 *)
Definition f0_8 : float := (7205759403792794%Z, (-53)%Z).

End Float64.

(** [train_size = int(len(X) * 0.8)] *)
Definition train_size_of (n : nat) : nat :=
  Z.to_nat (Float64.trunc (Float64.mul (Float64.of_int (Z.of_nat n)) Float64.f0_8)).

(** The same product by the Standard Library's specification of IEEE 754
    ([SpecFloat], binary64: 53 bits, exponents up to 1024), to compare. *)
Definition spec_train_size (n : Z) : Z :=
  match SFmul 53 1024 (binary_normalize 53 1024 n 0 false)
          (S754_finite false 7205759403792794 (-53)) with
  | S754_finite false m e =>
      if (0 <=? e)%Z then (Zpos m * 2 ^ e)%Z else (Zpos m / 2 ^ (- e))%Z
  | _ => 0%Z
  end.

(** Row counts to compare on: the small ones, and some spread up to 2^49. *)
Definition sample_sizes : list Z :=
  map Z.of_nat (seq 0 2000)
  ++ map (fun k => (2 ^ 49 - 1 - 281474976677 * Z.of_nat k)%Z) (seq 0 2000).

(** ** Column and row operations of pandas *)

Definition has_column (name : string) (d : DataFrame) : bool :=
  existsb (String.eqb name) (columns d).

Fixpoint index_of (name : string) (cols : list string) : option nat :=
  match cols with
  | [] => None
  | c :: cols' =>
      if String.eqb name c then Some 0%nat
      else option_map S (index_of name cols')
  end.

Definition other_than (name : string) (c : string) : bool := negb (String.eqb name c).

(** The cells of a row whose column is not [name]. *)
Definition drop_in_row (name : string) (cols : list string) (r : list cell)
  : list cell :=
  map snd (filter (fun p => other_than name (fst p)) (combine cols r)).

(** [data.drop(columns=[name])]: [KeyError] when no column has the name. *)
Definition drop_columns (name : string) (d : DataFrame) : result DataFrame :=
  if has_column name d then
    Ok (mkDataFrame (filter (other_than name) (columns d)) (index d)
          (map (drop_in_row name (columns d)) (values d)))
  else Raise KeyError.

(** [data[name]] *)
Definition get_column (name : string) (d : DataFrame) : result (Series cell) :=
  match index_of name (columns d) with
  | Some j => Ok (mkSeries (index d) (column_values j (values d)))
  | None => Raise KeyError
  end.

Fixpoint positions_of (names : list string) (cols : list string)
  : result (list nat) :=
  match names with
  | [] => Ok []
  | n :: names' =>
      match index_of n cols with
      | Some j => js <- positions_of names' cols ;; Ok (j :: js)
      | None => Raise KeyError
      end
  end.

(** [data[names]]: the named columns, in the order of [names]. *)
Definition select_columns (names : list string) (d : DataFrame)
  : result DataFrame :=
  js <- positions_of names (columns d) ;;
  Ok (mkDataFrame names (index d)
        (map (fun r => map (fun j => nth j r None) js) (values d))).

(** [X[:n]] and [X[n:]] on a frame, [y[:n]] and [y[n:]] on a series: by
    position. *)
Definition rows_to (n : nat) (d : DataFrame) : DataFrame :=
  mkDataFrame (columns d) (firstn n (index d)) (firstn n (values d)).

Definition rows_from (n : nat) (d : DataFrame) : DataFrame :=
  mkDataFrame (columns d) (skipn n (index d)) (skipn n (values d)).

Definition series_to (A : Type) (n : nat) (s : Series A) : Series A :=
  mkSeries (firstn n (s_index s)) (firstn n (s_values s)).

Definition series_from (A : Type) (n : nat) (s : Series A) : Series A :=
  mkSeries (skipn n (s_index s)) (skipn n (s_values s)).

(** [pd.Series(values, index=index)] *)
Definition pd_Series (A : Type) (vals : list A) (idx : list nat)
  : result (Series A) :=
  if (length vals =? length idx)%nat then Ok (mkSeries idx vals)
  else Raise ValueError.

(** [s.loc[label]] *)
Fixpoint loc_in (A : Type) (idx : list nat) (vals : list A) (label : nat)
  : option A :=
  match idx, vals with
  | i :: idx', v :: vals' => if (i =? label)%nat then Some v else loc_in idx' vals' label
  | _, _ => None
  end.

Definition loc (A : Type) (s : Series A) (label : nat) : option A :=
  loc_in (s_index s) (s_values s) label.

(** ** scikit-learn's input validation *)

Definition has_nan (rows : list (list cell)) : bool := existsb row_has_na rows.

(** [check_X_y]: a row, a column, no NaN, one target per row. *)
Definition check_X_y (X : DataFrame) (y : Series cell) : result unit :=
  if (len X =? 0)%nat || (length (columns X) =? 0)%nat
     || has_nan (values X) || existsb isna (s_values y)
     || negb (len X =? length (s_values y))%nat
  then Raise ValueError else Ok tt.

(** [check_array] of the rows handed to [predict]. *)
Definition check_array (X : DataFrame) : result unit :=
  if (len X =? 0)%nat || (length (columns X) =? 0)%nat || has_nan (values X)
  then Raise ValueError else Ok tt.

(** [mutual_info_regression] estimates from the 3 nearest neighbours of
    every sample among the others: [NearestNeighbors.kneighbors] refuses a
    sample of fewer than 4 rows. *)
Definition n_neighbors : nat := 3.

Definition check_n_neighbors (X : DataFrame) : result unit :=
  if (len X <=? n_neighbors)%nat then Raise ValueError else Ok tt.

(** ** [SelectKBest] *)

(** Stable insertion of a scored position: before the first entry whose score
    is not smaller. *)
Fixpoint insert_scored (x : nat * R) (l : list (nat * R)) : list (nat * R) :=
  match l with
  | [] => [x]
  | y :: l' =>
      if Rle_dec (snd x) (snd y) then x :: y :: l'
      else y :: insert_scored x l'
  end.

Definition sort_scored (l : list (nat * R)) : list (nat * R) :=
  fold_right insert_scored [] l.

(** [np.argsort(scores, kind="mergesort")]: the positions by ascending score,
    equal scores in position order. *)
Definition argsort (scores : list R) : list nat :=
  map fst (sort_scored (combine (seq 0 (length scores)) scores)).

(** The order of the sorted scores. *)
Definition by_score (a b : nat * R) : Prop := (snd a <= snd b)%R.

(** [a[-k:]] for [k > 0]. *)
Definition last_k (A : Type) (k : nat) (a : list A) : list A :=
  skipn (length a - k) a.

Definition mem (i : nat) (l : list nat) : bool := existsb (Nat.eqb i) l.

(** [get_support(indices=True)]: the mask of the [k] best scores, read back
    as ascending positions. *)
Definition get_support (scores : list R) (k : nat) : list nat :=
  if (k =? 0)%nat then []
  else
    let best := last_k k (argsort scores) in
    filter (fun i => mem i best) (seq 0 (length scores)).

(** What [SelectKBest.fit] does with a [k] above the number of columns:
    older releases of scikit-learn raise [ValueError], current ones warn and
    keep every column. *)
Inductive k_policy : Type :=
| k_rejected
| k_warned.

Definition check_params (policy : k_policy) (k ncols : nat) : result unit :=
  match policy with
  | k_rejected => if (ncols <? k)%nat then Raise ValueError else Ok tt
  | k_warned => Ok tt
  end.

(** ** Ensembling and scoring *)

Local Open Scope R_scope.

Fixpoint Rinsert (x : R) (l : list R) : list R :=
  match l with
  | [] => [x]
  | y :: l' => if Rle_dec x y then x :: y :: l' else y :: Rinsert x l'
  end.

Definition Rsort (l : list R) : list R := fold_right Rinsert [] l.

Definition np_sum (l : list R) : R := fold_right Rplus 0 l.

Definition np_mean (l : list R) : R := np_sum l / INR (length l).

(** [np.median] of a vector: the middle of the sorted values, or the mean of
    the two in the middle. *)
Definition np_median (l : list R) : R :=
  let part := Rsort l in
  let n := length part in
  if Nat.even n
  then np_mean [nth (n / 2 - 1) part 0; nth (n / 2) part 0]
  else np_mean [nth (n / 2) part 0].

(** [np.median(a, axis=0)] of the array whose rows are [a]. *)
Definition np_median_axis0 (a : list (list R)) : list R :=
  match a with
  | [] => []
  | r0 :: _ =>
      map (fun j => np_median (map (fun r => nth j r 0) a)) (seq 0 (length r0))
  end.

Fixpoint as_floats (l : list cell) : result (list R) :=
  match l with
  | [] => Ok []
  | Some x :: l' => xs <- as_floats l' ;; Ok (x :: xs)
  | None :: l' => Raise ValueError
  end.

(** [_check_reg_targets]: equal lengths, a sample, no NaN. *)
Definition check_reg_targets (y_true y_pred : list cell)
  : result (list R * list R) :=
  if negb (length y_true =? length y_pred)%nat || (length y_true =? 0)%nat
  then Raise ValueError
  else
    t <- as_floats y_true ;;
    p <- as_floats y_pred ;;
    Ok (t, p).

Fixpoint zip_with (A B C : Type) (f : A -> B -> C) (l : list A) (m : list B)
  : list C :=
  match l, m with
  | a :: l', b :: m' => f a b :: zip_with f l' m'
  | _, _ => []
  end.

Definition mean_absolute_percentage_error (y_true y_pred : list cell)
  : result R :=
  ' (t, p) <- check_reg_targets y_true y_pred ;;
  let mape := zip_with (fun yt yp => Rabs (yp - yt) / Rmax (Rabs yt) eps) t p in
  Ok (np_mean mape).

Definition mean_squared_error (y_true y_pred : list cell) : result R :=
  ' (t, p) <- check_reg_targets y_true y_pred ;;
  Ok (np_mean (zip_with (fun yt yp => (yt - yp) ^ 2) t p)).

(** [np.sqrt(mean_squared_error(y_true, y_pred))] *)
Definition root_mean_squared_error (y_true y_pred : list cell) : result R :=
  mse <- mean_squared_error y_true y_pred ;;
  Ok (sqrt mse).

Local Close Scope R_scope.

(** ** The pipeline *)

(** The parsed CSV: the [Date] column and the numeric columns, over one
    index. *)
Record PriceHistory : Type := mkPriceHistory {
  Date : list date;
  fields : DataFrame
}.

(** What [generate_predictions] returns. *)
Record PredictionBundle : Type := mkPredictionBundle {
  svm_predictions : Series R;
  lstm_predictions : Series R;
  combined_predictions : Series R;
  mape_svm : R;
  mape_lstm : R;
  mape_combined : R;
  rmse_svm : R;
  rmse_lstm : R;
  rmse_combined : R;
  dates_test : Series date;
  y_test : Series cell
}.

(** [param_grid] of [optimize_svm]: the values of [C] and of [gamma]. *)
Definition param_grid : list R * list R :=
  ([1 / 10; 1; 10]%R, [1; 1 / 10; 1 / 100]%R).

(** [X.values.reshape((X.shape[0], 1, X.shape[1]))] *)
Definition reshape_lstm (X : DataFrame) : list (list (list cell)) :=
  map (fun r => [r]) (values X).

Definition target_column : string := "Close".
Definition num_features : nat := 5.

Section Pipeline.

(** The numerical parts of scikit-learn and Keras: the mutual information
    estimate on a sample of at least 4 rows, the F statistic of one column
    against the target, the SVR that the grid search returns and the LSTM
    that the training returns, and their predictions, one per row. *)
Variable mutual_info_regression :
  list (list cell) -> list cell -> result (list R).
Variable f_statistic : list cell -> list cell -> R.
Variable policy : k_policy.
Variable SVR : Type.
Variable GridSearchCV_fit :
  list R * list R -> nat -> list (list cell) -> list cell -> SVR.
Variable SVR_predict : SVR -> list cell -> R.
Variable Sequential : Type.
Variable Sequential_fit :
  list (list (list cell)) -> list cell -> nat * nat -> Sequential.
Variable Sequential_predict : Sequential -> list (list cell) -> R.

(** [f_regression(X, y)]: one score per column. *)
Definition f_regression (X : DataFrame) (y : Series cell) : list R :=
  map (fun j => f_statistic (column_values j (values X)) (s_values y))
    (seq 0 (length (columns X))).

(** [select_features]: the mutual information is computed and not used; the
    names are those of the columns that [SelectKBest] keeps by the F test. *)
Definition select_features (X : DataFrame) (y : Series cell) (k : nat)
  : result (list string) :=
  _ <- check_X_y X y ;;
  _ <- check_n_neighbors X ;;
  mutual_info <- mutual_info_regression (values X) (s_values y) ;;
  _ <- check_X_y X y ;;
  _ <- check_params policy k (length (columns X)) ;;
  let scores := f_regression X y in
  let support := get_support scores k in
  Ok (map (fun j => nth j (columns X) EmptyString) support).

(** [GridSearchCV(SVR(), param_grid, refit=True, cv=5).fit]: [KFold] refuses
    fewer samples than splits. *)
Definition optimize_svm (X_train : DataFrame) (y_train : Series cell)
  : result SVR :=
  let cv := 5%nat in
  _ <- check_X_y X_train y_train ;;
  if (len X_train <? cv)%nat then Raise ValueError
  else Ok (GridSearchCV_fit param_grid cv (values X_train) (s_values y_train)).

(** [train_lstm]: two LSTM layers of 50 units, each followed by a dropout of
    0.2, and a dense output unit, compiled with adam on the mean squared
    error and fitted for 500 epochs in batches of 32; the fitted model is the
    parameter [Sequential_fit]. *)
Definition train_lstm (X_train : list (list (list cell)))
  (y_train : Series cell) (input_shape : nat * nat) : Sequential :=
  Sequential_fit X_train (s_values y_train) input_shape.

(** [svm_model.predict(X_test)] *)
Definition svm_predict (model : SVR) (X : DataFrame) : result (list R) :=
  _ <- check_array X ;;
  Ok (map (SVR_predict model) (values X)).

(** [lstm_model.predict(X_test_lstm).flatten()] *)
Definition lstm_predict (model : Sequential) (X : list (list (list cell)))
  : list R :=
  map (Sequential_predict model) X.

Definition generate_predictions (history : PriceHistory)
  : result PredictionBundle :=
  let data := fields history in
  let dates := mkSeries (index data) (Date history) in
  let data := clean_data data in
  ' (data, scaler) <- normalize_data data ;;
  X0 <- drop_columns target_column data ;;
  y0 <- get_column target_column data ;;
  selected_features <- select_features X0 y0 num_features ;;
  let selected_features := selected_features ++ [target_column] in
  data <- select_columns selected_features data ;;
  X <- drop_columns target_column data ;;
  y <- get_column target_column data ;;
  let train_size := train_size_of (len X) in
  let X_train := rows_to train_size X in
  let X_test := rows_from train_size X in
  let y_train := series_to train_size y in
  let y_test := series_from train_size y in
  let dates_train := series_to train_size dates in
  let dates_test := series_from train_size dates in
  let X_train_lstm := reshape_lstm X_train in
  let X_test_lstm := reshape_lstm X_test in
  svm_model <- optimize_svm X_train y_train ;;
  let lstm_model :=
    train_lstm X_train_lstm y_train (1%nat, length (columns X_train)) in
  svm_values <- svm_predict svm_model X_test ;;
  svm_predictions <- pd_Series svm_values (index X_test) ;;
  lstm_predictions <-
    pd_Series (lstm_predict lstm_model X_test_lstm) (index X_test) ;;
  combined_predictions <-
    pd_Series
      (np_median_axis0 [s_values svm_predictions; s_values lstm_predictions])
      (index X_test) ;;
  let floats := fun s : Series R => map Some (s_values s) in
  mape_svm <-
    mean_absolute_percentage_error (s_values y_test) (floats svm_predictions) ;;
  mape_lstm <-
    mean_absolute_percentage_error (s_values y_test) (floats lstm_predictions) ;;
  mape_combined <-
    mean_absolute_percentage_error (s_values y_test)
      (floats combined_predictions) ;;
  rmse_svm <-
    root_mean_squared_error (s_values y_test) (floats svm_predictions) ;;
  rmse_lstm <-
    root_mean_squared_error (s_values y_test) (floats lstm_predictions) ;;
  rmse_combined <-
    root_mean_squared_error (s_values y_test) (floats combined_predictions) ;;
  Ok (mkPredictionBundle svm_predictions lstm_predictions combined_predictions
        mape_svm mape_lstm mape_combined rmse_svm rmse_lstm rmse_combined
        dates_test y_test).

End Pipeline.

(** ** Notions of the design document *)





(** ** An instance of the parameters, and frames written out

    The least instance, to run the pipeline on a frame that is written out:
    mutual information and F statistic 0 for every column, an SVR that
    predicts 0 and an LSTM that predicts 1. *)

Module Plain.

Definition mutual_info_regression (X : list (list cell)) (y : list cell)
  : result (list R) :=
  Ok (map (fun _ => 0%R) (hd [] X)).

Definition f_statistic (c y : list cell) : R := 0%R.

Definition SVR : Type := unit.

Definition GridSearchCV_fit (grid : list R * list R) (cv : nat)
  (X : list (list cell)) (y : list cell) : SVR := tt.

Definition SVR_predict (m : SVR) (row : list cell) : R := 0%R.

Definition Sequential : Type := unit.

Definition Sequential_fit (X : list (list (list cell))) (y : list cell)
  (input_shape : nat * nat) : Sequential := tt.

Definition Sequential_predict (m : Sequential) (x : list (list cell)) : R :=
  1%R.

Definition select_features (policy : k_policy) :=
  select_features mutual_info_regression f_statistic policy.

Definition generate_predictions (policy : k_policy) :=
  generate_predictions mutual_info_regression f_statistic policy
    GridSearchCV_fit SVR_predict Sequential_fit Sequential_predict.

End Plain.

(** An F statistic that tells the columns of a frame apart: the first value
    of the column. *)
Definition first_value (c y : list cell) : R :=
  match c with
  | Some x :: _ => x
  | _ => 0%R
  end.

(** The columns of the downloaded CSV, [Date] apart. *)
Definition price_columns : list string :=
  ["Open"; "High"; "Low"; "Close"; "Adj Close"; "Volume"]%string.

(** The record of day [i]. *)
Definition price_row (i : nat) : list cell :=
  [Some (INR i); Some (INR i + 1)%R; Some (INR i); Some (INR i);
   Some (INR i); Some 1000%R].

(** [n] days, none with a missing value. *)
Definition history_of (n : nat) : PriceHistory :=
  mkPriceHistory (map Z.of_nat (seq 0 n))
    (mkDataFrame price_columns (seq 0 n) (map price_row (seq 0 n))).

(** Ten days, the first with no volume. *)
Definition gap_row : list cell :=
  [Some 0%R; Some 1%R; Some 0%R; Some 0%R; Some 0%R; None].

Definition gap_history : PriceHistory :=
  mkPriceHistory (map Z.of_nat (seq 0 10))
    (mkDataFrame price_columns (seq 0 10) (gap_row :: map price_row (seq 1 9))).

(** Three candidate columns, four records. *)
Definition narrow_X : DataFrame :=
  mkDataFrame ["Open"; "High"; "Low"]%string [0; 1; 2; 3]%nat
    [[Some 1%R; Some 2%R; Some 1%R]; [Some 2%R; Some 3%R; Some 2%R];
     [Some 3%R; Some 4%R; Some 3%R]; [Some 4%R; Some 5%R; Some 4%R]].

Definition narrow_y : Series cell :=
  mkSeries [0; 1; 2; 3]%nat [Some 1%R; Some 2%R; Some 3%R; Some 4%R].

(** ** Shapes *)

(** Every row has one cell per column, and none is missing. *)
Definition dense (d : DataFrame) : Prop :=
  forall r, In r (values d) ->
    length r = length (columns d) /\ row_has_na r = false.

(** What [pd.read_csv] returns: one label and one date per record, the labels
    counting from 0, one cell per column in every record. *)
Definition well_formed (h : PriceHistory) : Prop :=
  index (fields h) = RangeIndex (len (fields h))
  /\ length (Date h) = len (fields h)
  /\ forall r, In r (values (fields h)) ->
       length r = length (columns (fields h)).

(** The dates of the records that [clean_data] keeps, in order: each under
    the label the record has in the CSV. *)
Definition row_dates (h : PriceHistory) : list (option date) :=
  map (loc (mkSeries (index (fields h)) (Date h)))
    (index (clean_data (fields h))).

(** What a run of [generate_predictions] that returns has gone through: the
    sizes that the models accepted, and how each part of the bundle was built. *)
Record run_facts (h : PriceHistory) (b : PredictionBundle) : Prop := mkRunFacts {
  run_train : (5 <= train_size_of (len (clean_data (fields h))))%nat;
  run_test :
    (train_size_of (len (clean_data (fields h)))
     < len (clean_data (fields h)))%nat;
  run_dates :
    dates_test b
    = series_from (train_size_of (len (clean_data (fields h))))
        (mkSeries (index (fields h)) (Date h));
  run_y_index :
    s_index (y_test b)
    = skipn (train_size_of (len (clean_data (fields h))))
        (RangeIndex (len (clean_data (fields h))));
  run_y_length :
    length (s_values (y_test b))
    = (len (clean_data (fields h))
       - train_size_of (len (clean_data (fields h))))%nat;
  run_svm_index : s_index (svm_predictions b) = s_index (y_test b);
  run_lstm_index : s_index (lstm_predictions b) = s_index (y_test b);
  run_combined_index : s_index (combined_predictions b) = s_index (y_test b);
  run_svm_length :
    length (s_values (svm_predictions b)) = length (s_values (y_test b));
  run_lstm_length :
    length (s_values (lstm_predictions b)) = length (s_values (y_test b));
  run_combined :
    s_values (combined_predictions b)
    = np_median_axis0
        [s_values (svm_predictions b); s_values (lstm_predictions b)];
  run_mape_svm :
    mean_absolute_percentage_error (s_values (y_test b))
      (map Some (s_values (svm_predictions b))) = Ok (mape_svm b);
  run_mape_lstm :
    mean_absolute_percentage_error (s_values (y_test b))
      (map Some (s_values (lstm_predictions b))) = Ok (mape_lstm b);
  run_mape_combined :
    mean_absolute_percentage_error (s_values (y_test b))
      (map Some (s_values (combined_predictions b))) = Ok (mape_combined b);
  run_rmse_svm :
    root_mean_squared_error (s_values (y_test b))
      (map Some (s_values (svm_predictions b))) = Ok (rmse_svm b);
  run_rmse_lstm :
    root_mean_squared_error (s_values (y_test b))
      (map Some (s_values (lstm_predictions b))) = Ok (rmse_lstm b);
  run_rmse_combined :
    root_mean_squared_error (s_values (y_test b))
      (map Some (s_values (combined_predictions b))) = Ok (rmse_combined b)
}.

(** ** [plot_forecast] *)

(** A line of the chart: its legend label, and the coordinates handed to
    [ax.plot]. *)
Record Line : Type := mkLine {
  line_label : string;
  line_x : list date;
  line_y : list cell
}.

(** The figure that [st.pyplot] displays. *)
Record Figure : Type := mkFigure {
  fig_lines : list Line;
  fig_title : string;
  fig_xlabel : string;
  fig_ylabel : string;
  fig_legend : bool
}.

(** [plt.subplots(figsize=(12, 6))]: an empty figure. *)
Definition subplots : Figure :=
  mkFigure [] EmptyString EmptyString EmptyString false.

(** [ax.plot(x, y, label=label)]: matplotlib refuses [x] and [y] of different
    lengths. *)
Definition ax_plot (ax : Figure) (x : list date) (y : list cell)
  (label : string) : result Figure :=
  if (length x =? length y)%nat then
    Ok (mkFigure (fig_lines ax ++ [mkLine label x y]) (fig_title ax)
          (fig_xlabel ax) (fig_ylabel ax) (fig_legend ax))
  else Raise ValueError.

Definition plot_forecast (dates_test : Series date) (y_test : Series cell)
  (svm_predictions lstm_predictions combined_predictions : Series R)
  : result Figure :=
  let floats := fun s : Series R => map Some (s_values s) in
  let ax := subplots in
  ax <- ax_plot ax (s_values dates_test) (s_values y_test) "Precio Real" ;;
  ax <- ax_plot ax (s_values dates_test) (floats svm_predictions)
          "Predicciones SVM" ;;
  ax <- ax_plot ax (s_values dates_test) (floats lstm_predictions)
          "Predicciones LSTM" ;;
  ax <- ax_plot ax (s_values dates_test) (floats combined_predictions)
          "Predicciones Combinadas" ;;
  Ok (mkFigure (fig_lines ax) "Predicción de Precios de Acciones" "Fecha"
        "Precio Normalizado" true).

(** The call of [mostrar_pagina_ensamblado] on the bundle of a run. *)
Definition plot_bundle (b : PredictionBundle) : result Figure :=
  plot_forecast (dates_test b) (y_test b) (svm_predictions b)
    (lstm_predictions b) (combined_predictions b).

(** The candidate columns of a frame: all but the target. *)
Definition candidate_columns (d : DataFrame) : list string :=
  filter (other_than target_column) (columns d).

(** ** Tactics *)

(** Sizes of a frame that is written out. *)
Ltac frame_size := unfold len; simpl; lia.

(** * Properties *)

Lemma Ok_inj (A : Type) (a b : A) : Ok a = Ok b -> a = b.
Proof. intros H. now injection H. Qed.

Lemma Some_inj (A : Type) (a b : A) : Some a = Some b -> a = b.
Proof. intros H. now injection H. Qed.

Lemma combine_fst_snd (A B : Type) (l : list (A * B)) :
  combine (map fst l) (map snd l) = l.
Proof.
  induction l as [|[a b] l IH]; simpl; [reflexivity | now rewrite IH].
Qed.

Lemma filter_idem (A : Type) (f : A -> bool) (l : list A) :
  filter f (filter f l) = filter f l.
Proof.
  induction l as [|a l IH]; simpl; [reflexivity|].
  destruct (f a) eqn:E; simpl; [rewrite E, IH|]; auto.
Qed.

Lemma dropna_no_na (d : DataFrame) : no_na (dropna d).
Proof.
  intros r Hr. unfold dropna in Hr. simpl in Hr.
  apply in_map_iff in Hr. destruct Hr as [[i r'] [<- Hin]].
  apply filter_In in Hin. destruct Hin as [_ Hk].
  unfold keep_row in Hk. simpl in *. now apply negb_true_iff in Hk.
Qed.

(** C8: cleaning is idempotent, [clean_data] is a total function (it raises
    nothing and returns a frame), it only shrinks the series, and the frame it
    returns has no record with a missing value. *)
Theorem clean_data_idempotent (data : DataFrame) :
  clean_data (clean_data data) = clean_data data
  /\ (len (clean_data data) <= len data)%nat
  /\ no_na (clean_data data).
Proof.
  split; [|split].
  - unfold clean_data, dropna. simpl.
    rewrite combine_fst_snd, filter_idem. reflexivity.
  - unfold clean_data, dropna, len. simpl. rewrite length_map.
    etransitivity; [apply filter_length_le|].
    rewrite length_combine. apply Nat.le_min_r.
  - apply dropna_no_na.
Qed.

(** ** [int(len(X) * 0.8)] is the floor of four fifths *)

Local Open Scope Z_scope.

Lemma Float64_digits_le (m k : Z) :
  0 <= m < 2 ^ k -> 0 <= k -> Float64.digits m <= k.
Proof.
  intros [H0 H1] Hk. unfold Float64.digits.
  destruct (m =? 0) eqn:E; [lia|].
  apply Z.eqb_neq in E.
  assert (Z.log2 m < k) by (apply Z.log2_lt_pow2; lia). lia.
Qed.

Lemma Float64_of_int_exact (n : Z) :
  0 <= n < 2 ^ 53 -> Float64.of_int n = (n, 0).
Proof.
  intros H. unfold Float64.of_int, Float64.round_ne.
  assert (Float64.digits n <= 53) by (apply Float64_digits_le; lia).
  unfold Float64.prec.
  destruct (Float64.digits n <=? 53) eqn:E; [reflexivity|].
  apply Z.leb_gt in E. lia.
Qed.

(** The rounded significand is the truncated one or its successor. *)
Lemma Float64_round_ne_cases (m e : Z) :
  let d := Float64.digits m in
  Float64.prec < d ->
  exists q', Float64.round_ne m e = (q', e + (d - Float64.prec))
             /\ m / 2 ^ (d - Float64.prec) <= q' <= m / 2 ^ (d - Float64.prec) + 1.
Proof.
  intros d Hd. unfold Float64.round_ne. fold d.
  destruct (d <=? Float64.prec) eqn:E; [apply Z.leb_le in E; lia|].
  rewrite Z.shiftr_div_pow2 by lia.
  set (q := m / 2 ^ (d - Float64.prec)).
  eexists; split; [reflexivity|].
  destruct (_ <? _); [lia|]. destruct (_ <? _); [lia|].
  destruct (Z.even q); lia.
Qed.

Lemma Float64_mul_0_8 (n : Z) :
  0 <= n < 2 ^ 49 ->
  Float64.trunc (Float64.mul (Float64.of_int n) Float64.f0_8) = 4 * n / 5.
Proof.
  intros Hn.
  rewrite Float64_of_int_exact by lia.
  unfold Float64.mul, Float64.f0_8. cbn [fst snd].
  set (M := 7205759403792794).
  set (P := n * M).
  set (K := 4 * n / 5).
  assert (HK : 5 * K <= 4 * n < 5 * K + 5).
  { unfold K. pose proof (Z.div_mod (4 * n) 5 ltac:(lia)).
    pose proof (Z.mod_pos_bound (4 * n) 5 ltac:(lia)). lia. }
  assert (H5P : 5 * P = n * 2 ^ 55 + 2 * n) by (unfold P, M; lia).
  destruct (Z.eq_dec n 0) as [->|Hn0]; [reflexivity|].
  assert (HP : 0 < P) by (unfold P, M; lia).
  destruct (Z_le_gt_dec (Float64.digits P) Float64.prec) as [Hd|Hd].
  - (* the product fits: no rounding *)
    unfold Float64.round_ne.
    destruct (_ <=? _) eqn:E; [|apply Z.leb_gt in E; lia].
    unfold Float64.trunc. cbn [fst snd Z.add]. cbn [Z.leb Z.compare Z.opp].
    symmetry. apply Z.div_unique_pos with (r := P - K * 2 ^ 53); [|lia].
    unfold Float64.digits, Float64.prec in Hd.
    destruct (P =? 0) eqn:E0; [apply Z.eqb_eq in E0; lia|].
    assert (P < 2 ^ 53) by (apply Z.log2_lt_pow2; lia).
    assert (n = 1) by (unfold P, M in *; lia). subst n.
    unfold K, P, M. cbn. lia.
  - (* the product is rounded to 53 bits *)
    destruct (Float64_round_ne_cases P (0 + -53)) as [q' [-> Hq']]; [lia|].
    set (d := Float64.digits P) in *.
    set (s := d - Float64.prec) in *.
    assert (Hs : 1 <= s) by (unfold s; lia).
    assert (Hlog : 2 ^ (d - 1) <= P < 2 ^ d).
    { unfold d, Float64.digits. destruct (P =? 0) eqn:E0.
      - apply Z.eqb_eq in E0; lia.
      - replace (Z.log2 P + 1 - 1) with (Z.log2 P) by lia.
        replace (Z.log2 P + 1) with (Z.succ (Z.log2 P)) by lia.
        apply Z.log2_spec; lia. }
    assert (Hd102 : d <= 102).
    { destruct (Z_le_gt_dec d 102); [assumption|exfalso].
      assert (2 ^ 102 <= 2 ^ (d - 1)) by (apply Z.pow_le_mono_r; lia).
      assert (P < 2 ^ 49 * 2 ^ 53) by (unfold P, M; nia).
      change (2 ^ 49 * 2 ^ 53) with (2 ^ 102) in *. lia. }
    assert (Hs49 : s <= 49) by (unfold s, Float64.prec; lia).
    set (t := 53 - s).
    set (A := 2 ^ s). set (B := 2 ^ t).
    assert (HAB : A * B = 2 ^ 53).
    { unfold A, B, t. rewrite <- Z.pow_add_r by lia. f_equal. lia. }
    assert (HA : 0 < A) by (apply Z.pow_pos_nonneg; lia).
    assert (HB : 0 < B) by (apply Z.pow_pos_nonneg; unfold t; lia).
    assert (HAP : A * 2 ^ 52 <= P).
    { unfold A. rewrite <- Z.pow_add_r by lia.
      replace (s + 52) with (d - 1) by (unfold s, Float64.prec; lia). lia. }
    fold A in Hq'.
    assert (Hq : (P / A) * A <= P < (P / A) * A + A).
    { pose proof (Z.div_mod P A ltac:(lia)).
      pose proof (Z.mod_pos_bound P A HA). lia. }
    set (q := P / A) in *.
    unfold Float64.trunc. cbn [fst snd].
    destruct (0 <=? 0 + -53 + s) eqn:E; [apply Z.leb_le in E; lia|].
    replace (- (0 + -53 + s)) with t by (unfold t; lia). fold B.
    symmetry. apply Z.div_unique_pos with (r := q' - K * B); [|lia].
    assert (HA2n : A < 2 * n).
    { assert (P < n * 2 ^ 53) by (unfold P, M; nia). nia. }
    split.
    + (* K * B <= q *)
      assert (K * B <= q); [|lia].
      destruct (Z_le_gt_dec (K * B) q); [assumption|exfalso].
      assert (q + 1 <= K * B) by lia.
      assert ((q + 1) * A <= K * B * A) by (apply Z.mul_le_mono_nonneg_r; lia).
      assert (K * B * A = K * 2 ^ 53) by (rewrite <- HAB; ring).
      nia.
    + (* q + 1 < (K + 1) * B *)
      assert (q + 1 < (K + 1) * B); [|lia].
      destruct (Z_lt_ge_dec (q + 1) ((K + 1) * B)); [assumption|exfalso].
      assert ((K + 1) * B * A <= (q + 1) * A) by (apply Z.mul_le_mono_nonneg_r; lia).
      assert ((K + 1) * B * A = (K + 1) * 2 ^ 53) by (rewrite <- HAB; ring).
      assert (5 * ((K + 1) * 2 ^ 53) <= 5 * P + 5 * A) by lia.
      assert ((4 * n + 1) * 2 ^ 53 <= 5 * (K + 1) * 2 ^ 53) by nia.
      lia.
Qed.

(** On the sample sizes the model of the product agrees with [SpecFloat]. *)
Example Float64_agrees_with_SpecFloat :
  forallb
    (fun n =>
       Float64.trunc (Float64.mul (Float64.of_int n) Float64.f0_8)
       =? spec_train_size n)
    sample_sizes = true.
Proof. vm_compute. reflexivity. Qed.

Local Close Scope Z_scope.

Lemma train_size_of_floor (n : nat) :
  (Z.of_nat n < 2 ^ 49)%Z -> train_size_of n = (4 * n / 5)%nat.
Proof.
  intros Hn. unfold train_size_of.
  rewrite Float64_mul_0_8 by lia.
  rewrite <- (Nat2Z.id (4 * n / 5)). f_equal.
  rewrite Nat2Z.inj_div. f_equal. lia.
Qed.

(** ** [normalize_data] *)

Local Open Scope R_scope.

Lemma eps_pos : 0 < eps.
Proof. unfold eps. apply Rinv_0_lt_compat. apply pow_lt. lra. Qed.


Lemma nanmin_spec (c : list cell) (m : R) :
  nanmin c = Some m ->
  In (Some m) c /\ forall x, In (Some x) c -> m <= x.
Proof.
  revert m. induction c as [|[x|] c IH]; intros m H; simpl in H.
  - discriminate.
  - destruct (nanmin c) as [m'|] eqn:E.
    + injection H as <-. destruct (IH m' eq_refl) as [Hin Hle]. split.
      * unfold Rmin. destruct (Rle_dec x m'); [left; reflexivity | right; assumption].
      * intros y [Hy|Hy].
        -- injection Hy as <-. apply Rmin_l.
        -- eapply Rle_trans; [apply Rmin_r | apply Hle, Hy].
    + injection H as <-. split; [left; reflexivity|].
      intros y [Hy|Hy]; [injection Hy as <-; lra|].
      exfalso. clear IH. induction c as [|[z|] c IHc]; simpl in *.
      * contradiction.
      * destruct (nanmin c); discriminate.
      * destruct Hy as [Hy|Hy]; [discriminate | auto].
  - destruct (IH m H) as [Hin Hle]. split; [right; assumption|].
    intros y [Hy|Hy]; [discriminate | auto].
Qed.

Lemma nanmax_spec (c : list cell) (m : R) :
  nanmax c = Some m ->
  In (Some m) c /\ forall x, In (Some x) c -> x <= m.
Proof.
  revert m. induction c as [|[x|] c IH]; intros m H; simpl in H.
  - discriminate.
  - destruct (nanmax c) as [m'|] eqn:E.
    + injection H as <-. destruct (IH m' eq_refl) as [Hin Hle]. split.
      * unfold Rmax. destruct (Rle_dec x m'); [right; assumption | left; reflexivity].
      * intros y [Hy|Hy].
        -- injection Hy as <-. apply Rmax_l.
        -- eapply Rle_trans; [apply Hle, Hy | apply Rmax_r].
    + injection H as <-. split; [left; reflexivity|].
      intros y [Hy|Hy]; [injection Hy as <-; lra|].
      exfalso. clear IH. induction c as [|[z|] c IHc]; simpl in *.
      * contradiction.
      * destruct (nanmax c); discriminate.
      * destruct Hy as [Hy|Hy]; [discriminate | auto].
  - destruct (IH m H) as [Hin Hle]. split; [right; assumption|].
    intros y [Hy|Hy]; [discriminate | auto].
Qed.

Lemma nanmin_some (c : list cell) (x : R) :
  In (Some x) c -> exists m, nanmin c = Some m.
Proof.
  induction c as [|[y|] c IH]; simpl; intros H.
  - contradiction.
  - destruct (nanmin c); eauto.
  - destruct H as [H|H]; [discriminate | auto].
Qed.

Lemma nanmax_some (c : list cell) (x : R) :
  In (Some x) c -> exists m, nanmax c = Some m.
Proof.
  induction c as [|[y|] c IH]; simpl; intros H.
  - contradiction.
  - destruct (nanmax c); eauto.
  - destruct H as [H|H]; [discriminate | auto].
Qed.

(** The scaled value of a present cell of a column. *)
Lemma fit_column_cell (c : list cell) (x : R) :
  In (Some x) c ->
  exists sc, fit_column c = Some sc
    /\ (forall y, In (Some y) c -> data_min_ sc <= y <= data_max_ sc)
    /\ In (Some (data_min_ sc)) c /\ In (Some (data_max_ sc)) c
    /\ x * scale_ sc + min_ sc
       = (x - data_min_ sc) / handle_zeros_in_scale (data_max_ sc - data_min_ sc).
Proof.
  intros Hx.
  destruct (nanmin_some c x Hx) as [lo Hlo].
  destruct (nanmax_some c x Hx) as [hi Hhi].
  destruct (nanmin_spec c Hlo) as [Hlo_in Hlo_le].
  destruct (nanmax_spec c Hhi) as [Hhi_in Hhi_le].
  unfold fit_column. rewrite Hlo, Hhi.
  eexists; split; [reflexivity|]. cbn [data_min_ data_max_ scale_ min_].
  repeat split; auto.
  unfold handle_zeros_in_scale.
  destruct (Rlt_dec (hi - lo) (10 * eps)) as [Hc|Hc].
  - field.
  - pose proof eps_pos. field. lra.
Qed.


Local Close Scope R_scope.


Lemma nth_of_nth_error (r : list cell) (j : nat) (x : R) :
  nth j r None = Some x <-> nth_error r j = Some (Some x).
Proof.
  revert j. induction r as [|c r IH]; intros [|j]; simpl; try (split; discriminate).
  - split; intros H; [now rewrite H | now injection H].
  - apply IH.
Qed.



Lemma normalize_data_ok (data : DataFrame) :
  (0 < len data)%nat -> (0 < length (columns data))%nat ->
  normalize_data data =
  Ok (mkDataFrame (columns data) (RangeIndex (len data))
        (transform (fit (length (columns data)) (values data)) (values data)),
      fit (length (columns data)) (values data)).
Proof.
  intros Hr Hc. unfold normalize_data.
  destruct (len data =? 0)%nat eqn:E1; [apply Nat.eqb_eq in E1; lia|].
  destruct (length (columns data) =? 0)%nat eqn:E2; [apply Nat.eqb_eq in E2; lia|].
  reflexivity.
Qed.

Lemma normalize_data_inv (data data' : DataFrame) (scaler : MinMaxScaler) :
  normalize_data data = Ok (data', scaler) ->
  (0 < len data)%nat /\ (0 < length (columns data))%nat
  /\ scaler = fit (length (columns data)) (values data)
  /\ data' = mkDataFrame (columns data) (RangeIndex (len data))
               (transform scaler (values data)).
Proof.
  unfold normalize_data. intros H.
  destruct (len data =? 0)%nat eqn:E1; [discriminate|].
  destruct (length (columns data) =? 0)%nat eqn:E2; [discriminate|].
  simpl in H. injection H as <- <-.
  apply Nat.eqb_neq in E1, E2. repeat split; lia.
Qed.









(** ** The ensemble: the median of two members *)

Local Open Scope R_scope.

Lemma Rsort_two (a b : R) :
  Rsort [a; b] = if Rle_dec a b then [a; b] else [b; a].
Proof. reflexivity. Qed.

Lemma np_median_two (a b : R) : np_median [a; b] = (a + b) / 2.
Proof.
  unfold np_median. rewrite Rsort_two.
  destruct (Rle_dec a b); cbn; unfold np_mean, np_sum; cbn; field.
Qed.

Lemma np_median_axis0_two (a b : list R) :
  np_median_axis0 [a; b]
  = map (fun j => (nth j a 0 + nth j b 0) / 2) (seq 0 (length a)).
Proof.
  unfold np_median_axis0. apply map_ext. intros j. cbn [map].
  apply np_median_two.
Qed.

Lemma mean_between (a b : R) : Rmin a b <= (a + b) / 2 <= Rmax a b.
Proof.
  unfold Rmin, Rmax. destruct (Rle_dec a b); lra.
Qed.

(** ** The scores *)


Lemma as_floats_some (xs : list R) : as_floats (map Some xs) = Ok xs.
Proof.
  induction xs as [|x xs IH]; simpl; [reflexivity | now rewrite IH].
Qed.


Lemma check_reg_targets_ok (t p : list R) :
  length t = length p -> t <> [] ->
  check_reg_targets (map Some t) (map Some p) = Ok (t, p).
Proof.
  intros Hl Hne. unfold check_reg_targets. rewrite !length_map.
  rewrite (proj2 (Nat.eqb_eq _ _) Hl).
  destruct (length t =? 0)%nat eqn:E.
  - apply Nat.eqb_eq in E. destruct t; [contradiction | discriminate].
  - cbn [negb orb]. now rewrite !as_floats_some.
Qed.







Lemma mape_value (t p : list R) :
  length t = length p -> t <> [] ->
  mean_absolute_percentage_error (map Some t) (map Some p)
  = Ok (np_mean (zip_with (fun yt yp => Rabs (yp - yt) / Rmax (Rabs yt) eps) t p)).
Proof.
  intros Hl Hne. unfold mean_absolute_percentage_error.
  now rewrite check_reg_targets_ok.
Qed.

Lemma rmse_value (t p : list R) :
  length t = length p -> t <> [] ->
  root_mean_squared_error (map Some t) (map Some p)
  = Ok (sqrt (np_mean (zip_with (fun yt yp => (yt - yp) ^ 2) t p))).
Proof.
  intros Hl Hne. unfold root_mean_squared_error, mean_squared_error.
  now rewrite check_reg_targets_ok.
Qed.



Local Close Scope R_scope.

Lemma as_floats_ok (l : list cell) :
  existsb isna l = false -> exists xs, l = map Some xs.
Proof.
  induction l as [|[x|] l IH]; simpl; intros H.
  - exists []. reflexivity.
  - destruct (IH H) as [xs ->]. exists (x :: xs). reflexivity.
  - discriminate.
Qed.



(** ** [SelectKBest]: the support *)

Lemma insert_scored_perm (x : nat * R) (l : list (nat * R)) :
  Permutation (insert_scored x l) (x :: l).
Proof.
  induction l as [|y l IH]; simpl; [reflexivity|].
  destruct (Rle_dec (snd x) (snd y)); [reflexivity|].
  rewrite IH. apply perm_swap.
Qed.

Lemma sort_scored_perm (l : list (nat * R)) : Permutation (sort_scored l) l.
Proof.
  induction l as [|x l IH]; simpl; [reflexivity|].
  rewrite insert_scored_perm. now constructor.
Qed.

Lemma insert_scored_sorted (x : nat * R) (l : list (nat * R)) :
  StronglySorted by_score l -> StronglySorted by_score (insert_scored x l).
Proof.
  induction l as [|y l IH]; intros Hs; simpl.
  - repeat constructor.
  - inversion Hs as [|? ? Hl Hy]; subst.
    destruct (Rle_dec (snd x) (snd y)) as [Hle|Hgt].
    + constructor; [assumption|]. constructor; [exact Hle|].
      eapply Forall_impl; [|exact Hy]. unfold by_score. intros; lra.
    + constructor; [auto|].
      eapply Permutation_Forall; [symmetry; apply insert_scored_perm|].
      constructor; [unfold by_score; lra | assumption].
Qed.

Lemma sort_scored_sorted (l : list (nat * R)) :
  StronglySorted by_score (sort_scored l).
Proof.
  induction l as [|x l IH]; simpl; [constructor|].
  now apply insert_scored_sorted.
Qed.

Lemma StronglySorted_app_rel (A : Type) (rel : A -> A -> Prop) (l1 l2 : list A)
  (a b : A) :
  StronglySorted rel (l1 ++ l2) -> In a l1 -> In b l2 -> rel a b.
Proof.
  induction l1 as [|x l1 IH]; simpl; intros Hs Ha Hb; [contradiction|].
  inversion Hs as [|? ? Hl Hx]; subst. destruct Ha as [->|Ha]; [|auto].
  rewrite Forall_forall in Hx. apply Hx. apply in_or_app. now right.
Qed.

Lemma map_fst_combine_seq (A : Type) (l : list A) (s : nat) :
  map fst (combine (seq s (length l)) l) = seq s (length l).
Proof.
  revert s. induction l as [|a l IH]; intros s; simpl; [reflexivity|].
  now rewrite IH.
Qed.

Lemma in_combine_seq (l : list R) (s i : nat) (x : R) :
  In (i, x) (combine (seq s (length l)) l) -> x = nth (i - s) l 0%R /\ (s <= i)%nat.
Proof.
  revert s. induction l as [|a l IH]; intros s; simpl; [contradiction|].
  intros [H|H].
  - injection H as <- <-. rewrite Nat.sub_diag. split; [reflexivity | lia].
  - apply IH in H. destruct H as [-> Hle].
    replace (i - s)%nat with (S (i - S s)) by lia. split; [reflexivity | lia].
Qed.

Lemma argsort_perm (scores : list R) :
  Permutation (argsort scores) (seq 0 (length scores)).
Proof.
  unfold argsort. rewrite sort_scored_perm. now rewrite map_fst_combine_seq.
Qed.

Lemma NoDup_skipn (A : Type) (n : nat) (l : list A) : NoDup l -> NoDup (skipn n l).
Proof.
  intros H. rewrite <- (firstn_skipn n l) in H.
  now apply NoDup_app_remove_l in H.
Qed.

Lemma mem_In (i : nat) (l : list nat) : mem i l = true <-> In i l.
Proof.
  unfold mem. rewrite existsb_exists. split.
  - intros [x [Hin E]]. apply Nat.eqb_eq in E. now subst.
  - intros H. exists i. split; [assumption | apply Nat.eqb_refl].
Qed.

Lemma last_k_length (A : Type) (k : nat) (l : list A) :
  length (last_k k l) = Nat.min k (length l).
Proof. unfold last_k. rewrite length_skipn. lia. Qed.

Lemma in_last_k (A : Type) (k : nat) (l : list A) (x : A) :
  In x (last_k k l) -> In x l.
Proof.
  unfold last_k. intros H. rewrite <- (firstn_skipn (length l - k) l).
  apply in_or_app. now right.
Qed.

Lemma in_get_support (scores : list R) (k i : nat) :
  In i (get_support scores k) <->
  (k <> 0 /\ In i (last_k k (argsort scores)))%nat.
Proof.
  unfold get_support. destruct (Nat.eqb_spec k 0) as [->|Hk].
  - simpl. split; [contradiction | intros [H _]; now apply H].
  - rewrite filter_In, mem_In, in_seq. split.
    + intros [_ H]. auto.
    + intros [_ H]. split; [|assumption].
      apply in_last_k in H.
      apply (Permutation_in _ (argsort_perm scores)) in H.
      apply in_seq in H. lia.
Qed.

Lemma get_support_length (scores : list R) (k : nat) :
  length (get_support scores k) = Nat.min k (length scores).
Proof.
  destruct (Nat.eq_dec k 0) as [->|Hk]; [reflexivity|].
  rewrite <- (length_seq (length scores) 0).
  rewrite <- (Permutation_length (argsort_perm scores)).
  rewrite <- last_k_length.
  apply Permutation_length. apply NoDup_Permutation.
  - unfold get_support. destruct (Nat.eqb_spec k 0); [constructor|].
    apply NoDup_filter, seq_NoDup.
  - apply NoDup_skipn.
    apply (Permutation_NoDup (Permutation_sym (argsort_perm scores))).
    apply seq_NoDup.
  - intros i. rewrite in_get_support. tauto.
Qed.

(** The columns that are kept score at least as high as those that are not. *)
Lemma get_support_best (scores : list R) (k i j : nat) :
  In i (get_support scores k) ->
  (j < length scores)%nat -> ~ In j (get_support scores k) ->
  (nth j scores 0 <= nth i scores 0)%R.
Proof.
  intros Hi Hj Hnj.
  apply in_get_support in Hi. destruct Hi as [Hk Hi].
  assert (Hj' : ~ In j (last_k k (argsort scores)))
    by (intros H; apply Hnj, in_get_support; auto).
  assert (Hja : In j (argsort scores)).
  { apply (Permutation_in _ (Permutation_sym (argsort_perm scores))).
    apply in_seq. lia. }
  unfold last_k, argsort in *.
  set (sorted := sort_scored (combine (seq 0 (length scores)) scores)) in *.
  set (m := (length (map fst sorted) - k)%nat) in *.
  rewrite skipn_map in Hi, Hj'.
  rewrite <- (firstn_skipn m sorted), map_app in Hja.
  apply in_app_or in Hja. destruct Hja as [Hja|Hja]; [|contradiction].
  apply in_map_iff in Hja. destruct Hja as [[j' sj] [Ej Hjin]].
  apply in_map_iff in Hi. destruct Hi as [[i' si] [Ei Hiin]].
  simpl in Ej, Ei. subst j' i'.
  assert (Hle : by_score (j, sj) (i, si)).
  { apply (@StronglySorted_app_rel _ by_score (firstn m sorted) (skipn m sorted));
      auto.
    rewrite firstn_skipn. apply sort_scored_sorted. }
  assert (Hin : forall p, In p sorted ->
                          In p (combine (seq 0 (length scores)) scores)).
  { intros p Hp. apply (Permutation_in _ (sort_scored_perm _) Hp). }
  assert (Hsj : In (j, sj) sorted).
  { rewrite <- (firstn_skipn m sorted). apply in_or_app. now left. }
  assert (Hsi : In (i, si) sorted).
  { rewrite <- (firstn_skipn m sorted). apply in_or_app. now right. }
  apply Hin, in_combine_seq in Hsj. apply Hin, in_combine_seq in Hsi.
  destruct Hsj as [-> _]. destruct Hsi as [-> _].
  rewrite !Nat.sub_0_r in Hle. exact Hle.
Qed.

Lemma StronglySorted_seq (s n : nat) : StronglySorted lt (seq s n).
Proof.
  revert s. induction n as [|n IH]; intros s; simpl; constructor; [apply IH|].
  apply Forall_forall. intros x Hx. apply in_seq in Hx. lia.
Qed.

Lemma StronglySorted_filter_lt (f : nat -> bool) (l : list nat) :
  StronglySorted lt l -> StronglySorted lt (filter f l).
Proof.
  induction 1 as [|a l Hs IH Ha]; simpl; [constructor|].
  destruct (f a); [|assumption]. constructor; [assumption|].
  rewrite Forall_forall in *. intros x Hx. apply Ha.
  now apply filter_In in Hx.
Qed.

Lemma get_support_ascending (scores : list R) (k : nat) :
  StronglySorted lt (get_support scores k)
  /\ forall j, In j (get_support scores k) -> (j < length scores)%nat.
Proof.
  unfold get_support. destruct (Nat.eqb_spec k 0).
  - split; [constructor | intros j []].
  - split.
    + apply StronglySorted_filter_lt, StronglySorted_seq.
    + intros j Hj. apply filter_In in Hj. destruct Hj as [Hj _].
      apply in_seq in Hj. lia.
Qed.

Lemma StronglySorted_lt_NoDup (l : list nat) : StronglySorted lt l -> NoDup l.
Proof.
  induction 1 as [|a l Hs IH Ha]; constructor; [|assumption].
  intros Hin. rewrite Forall_forall in Ha. apply Ha in Hin. lia.
Qed.

(** ** [select_features] *)

Lemma bind_ok_inv (A B : Type) (r : result A) (k : A -> result B) (b : B) :
  bind r k = Ok b -> exists a, r = Ok a /\ k a = Ok b.
Proof. destruct r as [a|e]; simpl; [eauto | discriminate]. Qed.

Section SelectFeatures.

Variable mutual_info_regression :
  list (list cell) -> list cell -> result (list R).
Variable f_statistic : list cell -> list cell -> R.
Variable policy : k_policy.

Lemma f_regression_length (X : DataFrame) (y : Series cell) :
  length (f_regression f_statistic X y) = length (columns X).
Proof. unfold f_regression. now rewrite length_map, length_seq. Qed.

Lemma select_features_inv (X : DataFrame) (y : Series cell) (k : nat)
  (names : list string) :
  select_features mutual_info_regression f_statistic policy X y k = Ok names ->
  check_X_y X y = Ok tt
  /\ (exists s, mutual_info_regression (values X) (s_values y) = Ok s)
  /\ check_params policy k (length (columns X)) = Ok tt
  /\ names = map (fun j => nth j (columns X) EmptyString)
               (get_support (f_regression f_statistic X y) k).
Proof.
  unfold select_features. intros H.
  apply bind_ok_inv in H. destruct H as ([] & H1 & H).
  apply bind_ok_inv in H. destruct H as ([] & _ & H).
  apply bind_ok_inv in H. destruct H as (s & H2 & H).
  apply bind_ok_inv in H. destruct H as ([] & _ & H).
  apply bind_ok_inv in H. destruct H as ([] & H3 & H).
  apply Ok_inj in H. eauto.
Qed.

Lemma select_features_rows (X : DataFrame) (y : Series cell) (k : nat)
  (names : list string) :
  select_features mutual_info_regression f_statistic policy X y k = Ok names ->
  (n_neighbors < len X)%nat.
Proof.
  unfold select_features. intros H.
  apply bind_ok_inv in H. destruct H as ([] & _ & H).
  apply bind_ok_inv in H. destruct H as ([] & H & _).
  unfold check_n_neighbors in H.
  destruct (Nat.leb_spec (len X) n_neighbors); [discriminate | assumption].
Qed.

Lemma select_features_few_rows (X : DataFrame) (y : Series cell) (k : nat) :
  (len X <= n_neighbors)%nat ->
  select_features mutual_info_regression f_statistic policy X y k
  = Raise ValueError.
Proof.
  intros Hn. unfold select_features.
  destruct (check_X_y X y) as [[]|[]] eqn:E; cbn [bind].
  - unfold check_n_neighbors.
    destruct (Nat.leb_spec (len X) n_neighbors); [reflexivity | lia].
  - reflexivity.
  - unfold check_X_y in E.
    destruct (_ || _); discriminate.
Qed.

Lemma select_features_ok (X : DataFrame) (y : Series cell) (k : nat) :
  check_X_y X y = Ok tt ->
  (n_neighbors < len X)%nat ->
  is_ok (mutual_info_regression (values X) (s_values y)) = true ->
  check_params policy k (length (columns X)) = Ok tt ->
  select_features mutual_info_regression f_statistic policy X y k
  = Ok (map (fun j => nth j (columns X) EmptyString)
          (get_support (f_regression f_statistic X y) k)).
Proof.
  intros H1 Hn H2 H3. unfold select_features.
  rewrite H1. cbn [bind]. unfold check_n_neighbors.
  destruct (Nat.leb_spec (len X) n_neighbors); [lia|]. cbn [bind].
  destruct (mutual_info_regression (values X) (s_values y)); [|discriminate].
  cbn [bind]. now rewrite H3.
Qed.

Lemma select_features_length (X : DataFrame) (y : Series cell) (k : nat)
  (names : list string) :
  select_features mutual_info_regression f_statistic policy X y k = Ok names ->
  length names = Nat.min k (length (columns X)).
Proof.
  intros H. apply select_features_inv in H. destruct H as (_ & _ & _ & ->).
  now rewrite length_map, get_support_length, f_regression_length.
Qed.

Lemma select_features_incl (X : DataFrame) (y : Series cell) (k : nat)
  (names : list string) :
  select_features mutual_info_regression f_statistic policy X y k = Ok names ->
  forall c, In c names -> In c (columns X).
Proof.
  intros H c Hc. apply select_features_inv in H.
  destruct H as (_ & _ & _ & ->).
  apply in_map_iff in Hc. destruct Hc as (j & <- & Hj).
  apply nth_In. apply in_get_support in Hj. destruct Hj as [_ Hj].
  apply in_last_k in Hj.
  apply (Permutation_in _ (argsort_perm _)) in Hj.
  apply in_seq in Hj. rewrite f_regression_length in Hj. lia.
Qed.

End SelectFeatures.

(** ** Frames through the pipeline *)

Lemma existsb_false_forall (A : Type) (f : A -> bool) (l : list A) :
  existsb f l = false <-> forall x, In x l -> f x = false.
Proof.
  induction l as [|a l IH]; simpl.
  - split; [intros _ x [] | reflexivity].
  - rewrite orb_false_iff, IH. split.
    + intros [Ha Hl] x [<-|Hx]; auto.
    + intros H. split; [apply H; now left | intros x Hx; apply H; now right].
Qed.

Lemma clean_data_values (d : DataFrame) (r : list cell) :
  In r (values (clean_data d)) -> In r (values d) /\ row_has_na r = false.
Proof.
  unfold clean_data, dropna. cbn [values]. intros H.
  apply in_map_iff in H. destruct H as [[i r'] [E H]]. simpl in E. subst r'.
  apply filter_In in H. destruct H as [Hin Hk]. split.
  - now apply in_combine_r in Hin.
  - unfold keep_row in Hk. now apply negb_true_iff in Hk.
Qed.

Lemma clean_data_dense (d : DataFrame) :
  (forall r, In r (values d) -> length r = length (columns d)) ->
  dense (clean_data d).
Proof.
  intros Hd r Hr. apply clean_data_values in Hr. destruct Hr as [Hin Hna].
  split; [|assumption]. now apply Hd.
Qed.

Lemma dense_has_nan (d : DataFrame) : dense d -> has_nan (values d) = false.
Proof.
  intros Hd. unfold has_nan. apply existsb_false_forall.
  intros r Hr. now apply Hd.
Qed.

Lemma in_combine_nth (A B : Type) (l : list A) (m : list B) (a : A) (b : B) :
  In (a, b) (combine l m) ->
  exists j, nth_error l j = Some a /\ nth_error m j = Some b.
Proof.
  revert m. induction l as [|x l IH]; intros [|y m]; simpl; try contradiction.
  intros [H|H].
  - injection H as -> ->. exists 0%nat. auto.
  - destruct (IH m H) as [j [H1 H2]]. exists (S j). auto.
Qed.

Lemma fit_length (ncols : nat) (rows : list (list cell)) :
  length (fit ncols rows) = ncols.
Proof. unfold fit. now rewrite length_map, length_seq. Qed.

Lemma transform_row_dense (ncols : nat) (rows : list (list cell))
  (r : list cell) :
  In r rows -> length r = ncols -> row_has_na r = false ->
  let r' := map transform_cell (combine (fit ncols rows) r) in
  length r' = ncols /\ row_has_na r' = false.
Proof.
  intros Hin Hlen Hna r'. subst r'. split.
  - rewrite length_map, length_combine, fit_length. lia.
  - unfold row_has_na. apply existsb_false_forall.
    intros c Hc. apply in_map_iff in Hc. destruct Hc as [[a c0] [<- Hp]].
    apply in_combine_nth in Hp. destruct Hp as [j [Ha Hc0]].
    unfold row_has_na in Hna.
    assert (Hc0na : isna c0 = false).
    { eapply existsb_false_forall; [exact Hna|]. eapply nth_error_In; eauto. }
    destruct c0 as [x|]; [|discriminate].
    unfold fit in Ha. rewrite nth_error_map in Ha.
    destruct (nth_error (seq 0 ncols) j) as [j'|] eqn:Ej; [|discriminate].
    assert (j' = j).
    { rewrite nth_error_seq in Ej.
      destruct (Nat.ltb_spec j ncols); [|discriminate]. now injection Ej. }
    subst j'. cbn [option_map] in Ha. apply Some_inj in Ha. subst a.
    assert (Hcol : In (Some x) (column_values j rows)).
    { unfold column_values. apply in_map_iff. exists r. split; [|assumption].
      now apply nth_of_nth_error. }
    destruct (fit_column_cell _ _ Hcol) as (sc & -> & _). reflexivity.
Qed.

Lemma normalize_data_dense (d d' : DataFrame) (scaler : MinMaxScaler) :
  normalize_data d = Ok (d', scaler) -> dense d ->
  dense d' /\ columns d' = columns d /\ len d' = len d
  /\ index d' = RangeIndex (len d).
Proof.
  intros H Hd. apply normalize_data_inv in H.
  destruct H as (_ & _ & -> & ->). cbn [columns index values].
  split; [|split; [reflexivity|split; [|reflexivity]]].
  - intros r' Hr'. cbn [values columns] in *. unfold transform in Hr'.
    apply in_map_iff in Hr'. destruct Hr' as [r [<- Hr]].
    destruct (Hd r Hr) as [Hlen Hna].
    now apply transform_row_dense.
  - unfold len, transform. cbn [values]. now rewrite length_map.
Qed.

Lemma has_column_In (name : string) (d : DataFrame) :
  has_column name d = true <-> In name (columns d).
Proof.
  unfold has_column. rewrite existsb_exists. split.
  - intros [c [Hc E]]. apply String.eqb_eq in E. now subst.
  - intros H. exists name. split; [assumption | apply String.eqb_refl].
Qed.

Lemma index_of_Some (name : string) (cols : list string) :
  In name cols ->
  exists j, index_of name cols = Some j /\ (j < length cols)%nat.
Proof.
  induction cols as [|c cols IH]; simpl; [contradiction|].
  intros H. destruct (String.eqb_spec name c) as [E|N].
  - exists 0%nat. split; [reflexivity | lia].
  - destruct H as [H|H]; [congruence|].
    destruct (IH H) as [j [-> Hj]]. exists (S j). split; [reflexivity | lia].
Qed.

Lemma index_of_lt (name : string) (cols : list string) (j : nat) :
  index_of name cols = Some j -> (j < length cols)%nat /\ In name cols.
Proof.
  revert j. induction cols as [|c cols IH]; simpl; intros j H; [discriminate|].
  destruct (String.eqb_spec name c) as [E|N].
  - injection H as <-. split; [lia | now left].
  - destruct (index_of name cols) as [j'|]; [|discriminate].
    injection H as <-. destruct (IH j' eq_refl). split; [lia | now right].
Qed.

Lemma drop_in_row_length (name : string) (cols : list string) (r : list cell) :
  length r = length cols ->
  length (drop_in_row name cols r) = length (filter (other_than name) cols).
Proof.
  unfold drop_in_row. rewrite length_map. revert r.
  induction cols as [|c cols IH]; intros [|x r] H; try discriminate; simpl.
  - reflexivity.
  - injection H as H. destruct (other_than name c); simpl; now rewrite IH.
Qed.

Lemma drop_in_row_In (name : string) (cols : list string) (r : list cell)
  (c : cell) :
  In c (drop_in_row name cols r) -> In c r.
Proof.
  unfold drop_in_row. intros H. apply in_map_iff in H.
  destruct H as [[n c'] [E H]]. simpl in E. subst c'.
  apply filter_In in H. destruct H as [H _]. now apply in_combine_r in H.
Qed.

Lemma drop_columns_inv (name : string) (d X : DataFrame) :
  drop_columns name d = Ok X ->
  In name (columns d)
  /\ X = mkDataFrame (filter (other_than name) (columns d)) (index d)
           (map (drop_in_row name (columns d)) (values d)).
Proof.
  unfold drop_columns. destruct (has_column name d) eqn:E; [|discriminate].
  intros H. apply Ok_inj in H. split; [now apply has_column_In | now subst].
Qed.

Lemma drop_columns_ok (name : string) (d : DataFrame) :
  In name (columns d) ->
  drop_columns name d
  = Ok (mkDataFrame (filter (other_than name) (columns d)) (index d)
          (map (drop_in_row name (columns d)) (values d))).
Proof.
  intros H. unfold drop_columns.
  now rewrite (proj2 (has_column_In name d) H).
Qed.

Lemma drop_columns_dense (name : string) (d X : DataFrame) :
  drop_columns name d = Ok X -> dense d -> dense X.
Proof.
  intros H Hd. apply drop_columns_inv in H. destruct H as [_ ->].
  intros r' Hr'. cbn [values columns] in *.
  apply in_map_iff in Hr'. destruct Hr' as [r [<- Hr]].
  destruct (Hd r Hr) as [Hlen Hna]. split.
  - now apply drop_in_row_length.
  - unfold row_has_na in *. apply existsb_false_forall. intros c Hc.
    apply drop_in_row_In in Hc.
    eapply existsb_false_forall; [exact Hna | exact Hc].
Qed.

Lemma get_column_inv (name : string) (d : DataFrame) (y : Series cell) :
  get_column name d = Ok y ->
  exists j, index_of name (columns d) = Some j
            /\ y = mkSeries (index d) (column_values j (values d)).
Proof.
  unfold get_column. destruct (index_of name (columns d)) as [j|]; [|discriminate].
  intros H. apply Ok_inj in H. eauto.
Qed.

Lemma column_values_dense (d : DataFrame) (j : nat) :
  dense d -> (j < length (columns d))%nat ->
  existsb isna (column_values j (values d)) = false.
Proof.
  intros Hd Hj. apply existsb_false_forall. intros c Hc.
  unfold column_values in Hc. apply in_map_iff in Hc.
  destruct Hc as [r [<- Hr]]. destruct (Hd r Hr) as [Hlen Hna].
  unfold row_has_na in Hna.
  eapply existsb_false_forall; [exact Hna|]. apply nth_In.
  unfold cell in *. lia.
Qed.

Lemma column_values_length (j : nat) (rows : list (list cell)) :
  length (column_values j rows) = length rows.
Proof. unfold column_values. apply length_map. Qed.

Lemma positions_of_inv (names cols : list string) (js : list nat) :
  positions_of names cols = Ok js ->
  length js = length names
  /\ (forall j, In j js -> (j < length cols)%nat)
  /\ (forall n, In n names -> In n cols).
Proof.
  revert js. induction names as [|n names IH]; simpl; intros js H.
  - apply Ok_inj in H. subst. repeat split; simpl; tauto.
  - destruct (index_of n cols) as [j|] eqn:E; [|discriminate].
    apply bind_ok_inv in H. destruct H as (js' & H1 & H2).
    apply Ok_inj in H2. subst js.
    destruct (IH js' H1) as (Hl & Hlt & Hin).
    apply index_of_lt in E. destruct E as [Ej En].
    repeat split; simpl.
    + now rewrite Hl.
    + intros j0 [<-|H0]; auto.
    + intros n0 [<-|H0]; auto.
Qed.

Lemma positions_of_ok (names cols : list string) :
  (forall n, In n names -> In n cols) ->
  exists js, positions_of names cols = Ok js.
Proof.
  induction names as [|n names IH]; simpl; intros H; [eauto|].
  destruct (index_of_Some n cols) as [j [-> _]]; [apply H; now left|].
  destruct IH as [js ->]; [intros; apply H; now right|].
  simpl. eauto.
Qed.

Lemma select_columns_inv (names : list string) (d d2 : DataFrame) :
  select_columns names d = Ok d2 ->
  exists js, positions_of names (columns d) = Ok js
    /\ d2 = mkDataFrame names (index d)
              (map (fun r => map (fun j => nth j r None) js) (values d)).
Proof.
  unfold select_columns. intros H.
  apply bind_ok_inv in H. destruct H as (js & H1 & H2).
  apply Ok_inj in H2. eauto.
Qed.

Lemma select_columns_ok (names : list string) (d : DataFrame) :
  (forall n, In n names -> In n (columns d)) ->
  exists d2, select_columns names d = Ok d2.
Proof.
  intros H. destruct (positions_of_ok names (columns d) H) as [js Hjs].
  unfold select_columns. rewrite Hjs. simpl. eauto.
Qed.

Lemma select_columns_dense (names : list string) (d d2 : DataFrame) :
  select_columns names d = Ok d2 -> dense d -> dense d2.
Proof.
  intros H Hd. apply select_columns_inv in H. destruct H as (js & Hjs & ->).
  apply positions_of_inv in Hjs. destruct Hjs as (Hl & Hlt & _).
  intros r' Hr'. cbn [values columns] in *.
  apply in_map_iff in Hr'. destruct Hr' as [r [<- Hr]].
  destruct (Hd r Hr) as [Hlen Hna]. split.
  - now rewrite length_map.
  - unfold row_has_na in *. apply existsb_false_forall. intros c Hc.
    apply in_map_iff in Hc. destruct Hc as [j [<- Hj]].
    eapply existsb_false_forall; [exact Hna|].
    apply nth_In. apply Hlt in Hj. unfold cell in *. lia.
Qed.

Lemma rows_to_dense (n : nat) (d : DataFrame) : dense d -> dense (rows_to n d).
Proof.
  intros Hd r Hr. cbn [rows_to values columns] in *.
  apply Hd. rewrite <- (firstn_skipn n (values d)). apply in_or_app. now left.
Qed.

Lemma rows_from_dense (n : nat) (d : DataFrame) : dense d -> dense (rows_from n d).
Proof.
  intros Hd r Hr. cbn [rows_from values columns] in *.
  apply Hd. rewrite <- (firstn_skipn n (values d)). apply in_or_app. now right.
Qed.

Lemma existsb_isna_firstn (n : nat) (l : list cell) :
  existsb isna l = false -> existsb isna (firstn n l) = false.
Proof.
  rewrite !existsb_false_forall. intros H x Hx. apply H.
  rewrite <- (firstn_skipn n l). apply in_or_app. now left.
Qed.

Lemma existsb_isna_skipn (n : nat) (l : list cell) :
  existsb isna l = false -> existsb isna (skipn n l) = false.
Proof.
  rewrite !existsb_false_forall. intros H x Hx. apply H.
  rewrite <- (firstn_skipn n l). apply in_or_app. now right.
Qed.

(** ** A run of [generate_predictions] *)

Lemma pd_Series_inv (A : Type) (vals : list A) (idx : list nat) (s : Series A) :
  pd_Series vals idx = Ok s -> s = mkSeries idx vals /\ length vals = length idx.
Proof.
  unfold pd_Series. destruct (Nat.eqb_spec (length vals) (length idx)); [|discriminate].
  intros H. apply Ok_inj in H. now subst.
Qed.

Lemma pd_Series_ok (A : Type) (vals : list A) (idx : list nat) :
  length vals = length idx -> pd_Series vals idx = Ok (mkSeries idx vals).
Proof.
  intros H. unfold pd_Series. now rewrite (proj2 (Nat.eqb_eq _ _) H).
Qed.

Lemma check_X_y_inv (X : DataFrame) (y : Series cell) :
  check_X_y X y = Ok tt ->
  (0 < len X)%nat /\ (0 < length (columns X))%nat
  /\ has_nan (values X) = false /\ existsb isna (s_values y) = false
  /\ len X = length (s_values y).
Proof.
  unfold check_X_y. intros H.
  destruct (len X =? 0)%nat eqn:E1; [discriminate|].
  destruct (length (columns X) =? 0)%nat eqn:E2; [discriminate|].
  destruct (has_nan (values X)); [discriminate|].
  destruct (existsb isna (s_values y)); [discriminate|].
  destruct (len X =? length (s_values y))%nat eqn:E3; [|discriminate].
  apply Nat.eqb_neq in E1, E2. apply Nat.eqb_eq in E3.
  repeat split; auto; lia.
Qed.

Lemma check_X_y_ok (X : DataFrame) (y : Series cell) :
  (0 < len X)%nat -> (0 < length (columns X))%nat ->
  has_nan (values X) = false -> existsb isna (s_values y) = false ->
  len X = length (s_values y) ->
  check_X_y X y = Ok tt.
Proof.
  intros H1 H2 H3 H4 H5. unfold check_X_y. rewrite H3, H4, <- H5.
  rewrite Nat.eqb_refl.
  destruct (Nat.eqb_spec (len X) 0); [lia|].
  destruct (Nat.eqb_spec (length (columns X)) 0); [lia|]. reflexivity.
Qed.

Lemma check_array_inv (X : DataFrame) :
  check_array X = Ok tt ->
  (0 < len X)%nat /\ (0 < length (columns X))%nat /\ has_nan (values X) = false.
Proof.
  unfold check_array. intros H.
  destruct (len X =? 0)%nat eqn:E1; [discriminate|].
  destruct (length (columns X) =? 0)%nat eqn:E2; [discriminate|].
  destruct (has_nan (values X)); [discriminate|].
  apply Nat.eqb_neq in E1, E2. repeat split; auto; lia.
Qed.

Lemma check_array_ok (X : DataFrame) :
  (0 < len X)%nat -> (0 < length (columns X))%nat ->
  has_nan (values X) = false -> check_array X = Ok tt.
Proof.
  intros H1 H2 H3. unfold check_array. rewrite H3.
  destruct (Nat.eqb_spec (len X) 0); [lia|].
  destruct (Nat.eqb_spec (length (columns X)) 0); [lia|]. reflexivity.
Qed.

Lemma np_median_axis0_length (a b : list R) :
  length (np_median_axis0 [a; b]) = length a.
Proof. rewrite np_median_axis0_two. now rewrite length_map, length_seq. Qed.

Section Runs.

Variable mutual_info_regression :
  list (list cell) -> list cell -> result (list R).
Variable f_statistic : list cell -> list cell -> R.
Variable policy : k_policy.
Variable SVR : Type.
Variable GridSearchCV_fit :
  list R * list R -> nat -> list (list cell) -> list cell -> SVR.
Variable SVR_predict : SVR -> list cell -> R.
Variable Sequential : Type.
Variable Sequential_fit :
  list (list (list cell)) -> list cell -> nat * nat -> Sequential.
Variable Sequential_predict : Sequential -> list (list cell) -> R.

Local Abbreviation run :=
  (generate_predictions mutual_info_regression f_statistic policy
     GridSearchCV_fit SVR_predict Sequential_fit Sequential_predict).

Lemma optimize_svm_inv (X_train : DataFrame) (y_train : Series cell) (m : SVR) :
  optimize_svm GridSearchCV_fit X_train y_train = Ok m ->
  check_X_y X_train y_train = Ok tt /\ (5 <= len X_train)%nat.
Proof.
  unfold optimize_svm. intros H.
  apply bind_ok_inv in H. destruct H as ([] & H1 & H).
  split; [assumption|].
  destruct (Nat.ltb_spec (len X_train) 5); [discriminate | assumption].
Qed.

Lemma svm_predict_inv (m : SVR) (X : DataFrame) (v : list R) :
  svm_predict SVR_predict m X = Ok v ->
  check_array X = Ok tt /\ v = map (SVR_predict m) (values X).
Proof.
  unfold svm_predict. intros H.
  apply bind_ok_inv in H. destruct H as ([] & H1 & H).
  apply Ok_inj in H. auto.
Qed.

Lemma generate_predictions_inv (h : PriceHistory) (b : PredictionBundle) :
  run h = Ok b -> run_facts h b.
Proof.
  unfold generate_predictions. intros H.
  apply bind_ok_inv in H. destruct H as ([d1 scaler] & Hnorm & H).
  apply bind_ok_inv in H. destruct H as (X0 & HX0 & H).
  apply bind_ok_inv in H. destruct H as (y0 & Hy0 & H).
  apply bind_ok_inv in H. destruct H as (sel & Hsel & H).
  apply bind_ok_inv in H. destruct H as (d2 & Hd2 & H).
  apply bind_ok_inv in H. destruct H as (X & HX & H).
  apply bind_ok_inv in H. destruct H as (y & Hy & H).
  apply bind_ok_inv in H. destruct H as (svm_model & Hsvm & H).
  apply bind_ok_inv in H. destruct H as (svm_values & Hsv & H).
  apply bind_ok_inv in H. destruct H as (svm_p & Hsp & H).
  apply bind_ok_inv in H. destruct H as (lstm_p & Hlp & H).
  apply bind_ok_inv in H. destruct H as (comb_p & Hcp & H).
  apply bind_ok_inv in H. destruct H as (m1 & Hm1 & H).
  apply bind_ok_inv in H. destruct H as (m2 & Hm2 & H).
  apply bind_ok_inv in H. destruct H as (m3 & Hm3 & H).
  apply bind_ok_inv in H. destruct H as (r1 & Hr1 & H).
  apply bind_ok_inv in H. destruct H as (r2 & Hr2 & H).
  apply bind_ok_inv in H. destruct H as (r3 & Hr3 & H).
  apply Ok_inj in H. subst b.
  set (n := len (clean_data (fields h))) in *.
  (* the shapes of the frames *)
  apply normalize_data_inv in Hnorm. destruct Hnorm as (_ & _ & _ & Ed1).
  assert (Hd1 : len d1 = n /\ index d1 = RangeIndex n).
  { subst d1. unfold len, transform. cbn [values index].
    rewrite length_map. auto. }
  destruct Hd1 as [Hd1n Hd1i].
  apply select_columns_inv in Hd2. destruct Hd2 as (js & _ & Ed2).
  assert (Hd2' : len d2 = n /\ index d2 = RangeIndex n).
  { subst d2. unfold len. cbn [values index]. rewrite length_map. auto. }
  destruct Hd2' as [Hd2n Hd2i].
  apply drop_columns_inv in HX. destruct HX as (_ & EX).
  assert (HX' : len X = n /\ index X = RangeIndex n).
  { subst X. unfold len. cbn [values index]. rewrite length_map. auto. }
  destruct HX' as [HXn HXi].
  apply get_column_inv in Hy. destruct Hy as (j & _ & Ey).
  assert (Hy' : length (s_values y) = n /\ s_index y = RangeIndex n).
  { subst y. cbn [s_values s_index]. rewrite column_values_length. auto. }
  destruct Hy' as [Hyn Hyi].
  rewrite HXn in *.
  set (ts := train_size_of n) in *.
  (* the guards of the models *)
  apply optimize_svm_inv in Hsvm. destruct Hsvm as [_ Htrain].
  apply svm_predict_inv in Hsv. destruct Hsv as [Hchk Esv].
  apply check_array_inv in Hchk. destruct Hchk as (Htest & _ & _).
  unfold len in Htrain, Htest. cbn [rows_to rows_from values] in Htrain, Htest.
  rewrite length_firstn in Htrain. rewrite length_skipn in Htest.
  fold (len X) in Htrain, Htest. rewrite HXn in Htrain, Htest.
  (* the series *)
  apply pd_Series_inv in Hsp. destruct Hsp as [-> Hspl].
  apply pd_Series_inv in Hlp. destruct Hlp as [-> Hlpl].
  apply pd_Series_inv in Hcp. destruct Hcp as [-> Hcpl].
  cbn [s_values s_index rows_from index] in *.
  assert (Hyl : length (skipn ts (s_values y)) = (n - ts)%nat)
    by (rewrite length_skipn; lia).
  assert (Hil : length (skipn ts (index X)) = (n - ts)%nat)
    by (rewrite HXi, length_skipn; unfold RangeIndex; rewrite length_seq; lia).
  constructor; cbn [svm_predictions lstm_predictions combined_predictions
                      mape_svm mape_lstm mape_combined rmse_svm rmse_lstm
                      rmse_combined dates_test y_test series_from s_index
                      s_values]; fold n; fold ts;
    try assumption; try reflexivity; try lia.
  - rewrite Hyi. reflexivity.
  - now rewrite HXi, Hyi.
  - now rewrite HXi, Hyi.
  - now rewrite HXi, Hyi.
Qed.

Lemma optimize_svm_ok (X_train : DataFrame) (y_train : Series cell) :
  check_X_y X_train y_train = Ok tt -> (5 <= len X_train)%nat ->
  optimize_svm GridSearchCV_fit X_train y_train
  = Ok (GridSearchCV_fit param_grid 5%nat (values X_train) (s_values y_train)).
Proof.
  intros H1 H2. unfold optimize_svm. rewrite H1. cbn [bind].
  destruct (Nat.ltb_spec (len X_train) 5); [lia | reflexivity].
Qed.

Lemma svm_predict_ok (m : SVR) (X : DataFrame) :
  check_array X = Ok tt ->
  svm_predict SVR_predict m X = Ok (map (SVR_predict m) (values X)).
Proof. intros H. unfold svm_predict. now rewrite H. Qed.

Lemma filter_nonempty (A : Type) (f : A -> bool) (l : list A) (a : A) :
  In a l -> f a = true -> (0 < length (filter f l))%nat.
Proof.
  intros Hin Hf. assert (H : In a (filter f l)) by (apply filter_In; auto).
  destruct (filter f l); [contradiction | simpl; lia].
Qed.

(** The run returns a bundle when the frame has its target column and a
    candidate column, the training segment has the five rows that the
    cross-validation asks for and leaves a test row, and the mutual
    information estimate accepts its input. *)
Lemma generate_predictions_ok (h : PriceHistory) :
  (forall r, In r (values (fields h)) ->
     length r = length (columns (fields h))) ->
  In target_column (columns (fields h)) ->
  (5 <= train_size_of (len (clean_data (fields h)))
   < len (clean_data (fields h)))%nat ->
  (0 < length (filter (other_than target_column) (columns (fields h))))%nat ->
  (policy = k_rejected ->
   (num_features
    <= length (filter (other_than target_column) (columns (fields h))))%nat) ->
  (forall X y, is_ok (mutual_info_regression X y) = true) ->
  exists b, run h = Ok b.
Proof.
  intros Hrect Htarget Hsize Hcand Hpolicy Hmi.
  set (d0 := clean_data (fields h)) in *.
  set (n := len d0) in *.
  assert (Hd0 : dense d0) by (apply clean_data_dense, Hrect).
  assert (Hc0 : columns d0 = columns (fields h)) by reflexivity.
  assert (Hn0 : (0 < n)%nat) by lia.
  assert (Hcols : (0 < length (columns d0))%nat).
  { rewrite Hc0. destruct (columns (fields h)); [contradiction | simpl; lia]. }
  (* normalize *)
  pose proof (@normalize_data_ok d0 Hn0 Hcols) as Hnorm.
  destruct (@normalize_data_dense _ _ _ Hnorm Hd0) as (Hd1 & Hc1 & Hn1 & Hi1).
  set (d1 := mkDataFrame (columns d0) (RangeIndex (len d0)) _) in *.
  rewrite Hc0 in Hc1.
  (* the candidate columns and the target *)
  assert (Ht1 : In target_column (columns d1)) by now rewrite Hc1.
  pose proof (@drop_columns_ok _ _ Ht1) as HX0.
  set (X0 := mkDataFrame (filter _ (columns d1)) (index d1) _) in *.
  assert (HdX0 : dense X0) by (eapply drop_columns_dense; eauto).
  destruct (@index_of_Some _ _ Ht1) as (j0 & Hj0 & Hj0lt).
  assert (Hy0 : get_column target_column d1
                = Ok (mkSeries (index d1) (column_values j0 (values d1))))
    by (unfold get_column; now rewrite Hj0).
  set (y0 := mkSeries (index d1) _) in *.
  assert (HlenX0 : len X0 = n).
  { unfold X0, len. cbn [values]. rewrite length_map. exact Hn1. }
  assert (HcolsX0 : columns X0
                    = filter (other_than target_column) (columns (fields h))).
  { unfold X0. cbn [columns]. now rewrite Hc1. }
  assert (Hchk0 : check_X_y X0 y0 = Ok tt).
  { apply check_X_y_ok.
    - lia.
    - now rewrite HcolsX0.
    - now apply dense_has_nan.
    - unfold y0. cbn [s_values]. now apply column_values_dense.
    - unfold y0. cbn [s_values]. rewrite column_values_length.
      rewrite HlenX0. symmetry. exact Hn1. }
  assert (Hpar : check_params policy num_features (length (columns X0)) = Ok tt).
  { unfold check_params. destruct policy; [|reflexivity].
    rewrite HcolsX0. specialize (Hpolicy eq_refl).
    destruct (Nat.ltb_spec
                (length (filter (other_than target_column) (columns (fields h))))
                num_features); [lia | reflexivity]. }
  assert (Hrows0 : (n_neighbors < len X0)%nat)
    by (rewrite HlenX0; unfold n_neighbors; lia).
  pose proof (@select_features_ok mutual_info_regression f_statistic policy
                X0 y0 num_features Hchk0 Hrows0 (Hmi _ _) Hpar) as Hsel.
  set (sel := map _ (get_support _ num_features)) in *.
  assert (Hsel_in : forall c, In c sel -> In c (columns X0))
    by (eapply select_features_incl; eauto).
  assert (Hsel_len : length sel = Nat.min num_features (length (columns X0)))
    by (eapply select_features_length; eauto).
  assert (Hsel_cols : forall c, In c (sel ++ [target_column]) ->
                                In c (columns d1)).
  { intros c Hc. apply in_app_or in Hc. destruct Hc as [Hc|[<-|[]]]; [|assumption].
    apply Hsel_in in Hc. unfold X0 in Hc. cbn [columns] in Hc.
    now apply filter_In in Hc. }
  destruct (@select_columns_ok _ _ Hsel_cols) as [d2 Hd2].
  assert (Hdd2 : dense d2) by (eapply select_columns_dense; eauto).
  pose proof Hd2 as Ed2. apply select_columns_inv in Ed2.
  destruct Ed2 as (js & _ & Ed2).
  assert (Hc2 : columns d2 = sel ++ [target_column]) by now subst d2.
  assert (Hn2 : len d2 = n).
  { subst d2. unfold len. cbn [values]. rewrite length_map. exact Hn1. }
  assert (Hi2 : index d2 = RangeIndex n) by (subst d2; exact Hi1).
  assert (Ht2 : In target_column (columns d2)).
  { rewrite Hc2. apply in_or_app. right. now left. }
  pose proof (@drop_columns_ok _ _ Ht2) as HX.
  set (X := mkDataFrame (filter _ (columns d2)) (index d2) _) in *.
  assert (HdX : dense X) by (eapply drop_columns_dense; eauto).
  assert (HnX : len X = n).
  { unfold X, len. cbn [values]. rewrite length_map. exact Hn2. }
  assert (HiX : index X = RangeIndex n) by exact Hi2.
  assert (HcX : (0 < length (columns X))%nat).
  { assert (Hs : (0 < length sel)%nat).
    { rewrite Hsel_len, HcolsX0. unfold num_features. lia. }
    destruct sel as [|c sel'] eqn:Es; [simpl in Hs; lia|].
    unfold X. cbn [columns]. apply filter_nonempty with c.
    - rewrite Hc2. now left.
    - assert (Hc : In c (columns X0)) by (apply Hsel_in; now left).
      unfold X0 in Hc. cbn [columns] in Hc. now apply filter_In in Hc. }
  destruct (@index_of_Some _ _ Ht2) as (j & Hj & Hjlt).
  assert (Hy : get_column target_column d2
               = Ok (mkSeries (index d2) (column_values j (values d2))))
    by (unfold get_column; now rewrite Hj).
  set (y := mkSeries (index d2) _) in *.
  assert (Hyna : existsb isna (s_values y) = false)
    by (unfold y; cbn [s_values]; now apply column_values_dense).
  assert (Hyn : length (s_values y) = n).
  { unfold y. cbn [s_values]. rewrite column_values_length. exact Hn2. }
  (* the split *)
  set (ts := train_size_of n) in *.
  assert (Htrain : check_X_y (rows_to ts X) (series_to ts y) = Ok tt).
  { apply check_X_y_ok.
    - unfold len. cbn [rows_to values]. rewrite length_firstn.
      fold (len X). lia.
    - exact HcX.
    - apply dense_has_nan. now apply rows_to_dense.
    - cbn [series_to s_values]. now apply existsb_isna_firstn.
    - unfold len. cbn [rows_to series_to values s_values].
      rewrite !length_firstn. fold (len X). lia. }
  assert (Htrain5 : (5 <= len (rows_to ts X))%nat).
  { unfold len. cbn [rows_to values]. rewrite length_firstn. fold (len X). lia. }
  assert (Htest : check_array (rows_from ts X) = Ok tt).
  { apply check_array_ok.
    - unfold len. cbn [rows_from values]. rewrite length_skipn.
      fold (len X). lia.
    - exact HcX.
    - apply dense_has_nan. now apply rows_from_dense. }
  assert (Hidx : length (index (rows_from ts X)) = (n - ts)%nat).
  { cbn [rows_from index]. rewrite HiX, length_skipn. unfold RangeIndex.
    now rewrite length_seq. }
  assert (Hrows : length (values (rows_from ts X)) = (n - ts)%nat).
  { cbn [rows_from values]. rewrite length_skipn. fold (len X). lia. }
  (* the targets of the test segment *)
  destruct (@as_floats_ok _ (@existsb_isna_skipn ts _ Hyna)) as [t Et].
  assert (Htl : length t = (n - ts)%nat).
  { rewrite <- (length_map Some t), <- Et, length_skipn. lia. }
  assert (Htne : t <> []) by (intros ->; simpl in Htl; lia).
  (* the run *)
  unfold generate_predictions. fold d0.
  rewrite Hnorm. cbn [bind].
  rewrite HX0. cbn [bind]. rewrite Hy0. cbn [bind].
  rewrite Hsel. cbn [bind]. rewrite Hd2. cbn [bind].
  rewrite HX. cbn [bind]. rewrite Hy. cbn [bind].
  rewrite HnX. fold ts.
  rewrite (@optimize_svm_ok _ _ Htrain Htrain5). cbn [bind].
  rewrite (@svm_predict_ok _ _ Htest). cbn [bind].
  rewrite pd_Series_ok by (rewrite length_map; unfold cell in *; lia).
  cbn [bind].
  rewrite pd_Series_ok
    by (unfold lstm_predict, reshape_lstm; rewrite !length_map;
        unfold cell in *; lia).
  cbn [bind s_values].
  rewrite pd_Series_ok
    by (rewrite np_median_axis0_length, length_map; unfold cell in *; lia).
  cbn [bind s_values series_from]. rewrite Et.
  rewrite !mape_value, !rmse_value;
    try assumption;
    try (rewrite ?np_median_axis0_length; unfold lstm_predict, reshape_lstm;
         rewrite ?length_map; unfold cell in *; lia).
  cbn [bind]. eauto.
Qed.

End Runs.

(** ** The frames that are written out *)

Lemma dropna_full (d : DataFrame) :
  length (index d) = length (values d) ->
  (forall r, In r (values d) -> row_has_na r = false) ->
  dropna d = d.
Proof.
  intros Hl Hna. unfold dropna.
  assert (E : filter keep_row (combine (index d) (values d))
              = combine (index d) (values d)).
  { apply forallb_filter_id. apply forallb_forall. intros [i r] Hin.
    unfold keep_row. cbn [snd]. apply in_combine_r in Hin.
    now rewrite (Hna r Hin). }
  rewrite E. destruct d as [c idx vals]. cbn [columns index values] in *.
  f_equal.
  - clear Hna E. revert vals Hl.
    induction idx as [|i idx IH]; intros [|v vals] Hl; try discriminate;
      simpl; [reflexivity|]. f_equal. apply IH. now injection Hl.
  - clear Hna E. revert idx Hl.
    induction vals as [|v vals IH]; intros [|i idx] Hl; try discriminate;
      simpl; [reflexivity|]. f_equal. apply IH. now injection Hl.
Qed.

Lemma history_of_clean (n : nat) :
  clean_data (fields (history_of n)) = fields (history_of n).
Proof.
  unfold clean_data. apply dropna_full.
  - cbn [history_of fields index values]. now rewrite length_map.
  - cbn [history_of fields values]. intros r Hr.
    apply in_map_iff in Hr. destruct Hr as [i [<- _]]. reflexivity.
Qed.

Lemma history_of_len (n : nat) : len (clean_data (fields (history_of n))) = n.
Proof.
  rewrite history_of_clean. unfold len. cbn [history_of fields values].
  now rewrite length_map, length_seq.
Qed.

Lemma history_of_rows (n : nat) (r : list cell) :
  In r (values (fields (history_of n))) ->
  length r = length (columns (fields (history_of n))).
Proof.
  cbn [history_of fields values columns]. intros Hr.
  apply in_map_iff in Hr. destruct Hr as [i [<- _]]. reflexivity.
Qed.

Lemma train_size_of_bounds (n : nat) :
  (7 <= n)%nat -> (Z.of_nat n < 2 ^ 49)%Z ->
  (5 <= train_size_of n < n)%nat.
Proof.
  intros H7 Hn. rewrite train_size_of_floor by assumption.
  split.
  - apply Nat.div_le_lower_bound; lia.
  - apply Nat.Div0.div_lt_upper_bound; lia.
Qed.


(** The plain instance runs through on every series of 7 rows or more. *)
Lemma plain_run (policy : k_policy) (n : nat) :
  (7 <= n)%nat -> (Z.of_nat n < 2 ^ 49)%Z ->
  exists b, Plain.generate_predictions policy (history_of n) = Ok b.
Proof.
  intros H7 Hn. unfold Plain.generate_predictions.
  apply generate_predictions_ok.
  - apply history_of_rows.
  - cbn. tauto.
  - rewrite history_of_len. now apply train_size_of_bounds.
  - vm_compute. lia.
  - intros _. vm_compute. lia.
  - reflexivity.
Qed.

(** * Guarantees of a run *)

Section Guarantees.

Variable mutual_info_regression :
  list (list cell) -> list cell -> result (list R).
Variable f_statistic : list cell -> list cell -> R.
Variable policy : k_policy.
Variable SVR : Type.
Variable GridSearchCV_fit :
  list R * list R -> nat -> list (list cell) -> list cell -> SVR.
Variable SVR_predict : SVR -> list cell -> R.
Variable Sequential : Type.
Variable Sequential_fit :
  list (list (list cell)) -> list cell -> nat * nat -> Sequential.
Variable Sequential_predict : Sequential -> list (list cell) -> R.

Local Abbreviation run :=
  (generate_predictions mutual_info_regression f_statistic policy
     GridSearchCV_fit SVR_predict Sequential_fit Sequential_predict).

(** C10: in a run that returns, the SVM, LSTM and combined predictions and
    the ground truth of the test segment all have [n - int(n * 0.8)] values,
    [n] the number of cleaned rows, and the three prediction series carry the
    row labels of the test split, [int(n * 0.8), ..., n - 1]; the float
    product [int(n * 0.8)] is the floor of [4 n / 5]. *)
Theorem prediction_vectors_aligned (h : PriceHistory) (b : PredictionBundle) :
  run h = Ok b ->
  let n := len (clean_data (fields h)) in
  let test_index := skipn (train_size_of n) (RangeIndex n) in
  length (s_values (svm_predictions b)) = (n - train_size_of n)%nat
  /\ length (s_values (lstm_predictions b)) = (n - train_size_of n)%nat
  /\ length (s_values (combined_predictions b)) = (n - train_size_of n)%nat
  /\ length (s_values (y_test b)) = (n - train_size_of n)%nat
  /\ s_index (svm_predictions b) = test_index
  /\ s_index (lstm_predictions b) = test_index
  /\ s_index (combined_predictions b) = test_index
  /\ s_index (y_test b) = test_index
  /\ test_index = seq (train_size_of n) (n - train_size_of n)
  /\ ((Z.of_nat n < 2 ^ 49)%Z -> train_size_of n = (4 * n / 5)%nat).
Proof.
  intros H. cbv zeta. apply generate_predictions_inv in H.
  destruct H as [Htrain Htest _ Hyi Hyl Hsi Hli Hci Hsl Hll Hc _ _ _ _ _ _].
  set (n := len (clean_data (fields h))) in *.
  set (ts := train_size_of n) in *.
  repeat split.
  - now rewrite Hsl.
  - now rewrite Hll.
  - now rewrite Hc, np_median_axis0_length, Hsl.
  - assumption.
  - now rewrite Hsi.
  - now rewrite Hli.
  - now rewrite Hci.
  - assumption.
  - unfold RangeIndex.
    replace n with (ts + (n - ts))%nat at 1 by lia.
    rewrite seq_app, skipn_app, length_seq, Nat.sub_diag.
    rewrite skipn_all2 by (rewrite length_seq; lia). reflexivity.
  - apply train_size_of_floor.
Qed.

(** C2: in a run that returns, the combined prediction is the elementwise
    median of the SVM and LSTM predictions; row by row it is their mean and
    lies between them. *)
Theorem ensemble_is_median (h : PriceHistory) (b : PredictionBundle) :
  run h = Ok b ->
  s_values (combined_predictions b)
  = np_median_axis0 [s_values (svm_predictions b); s_values (lstm_predictions b)]
  /\ forall i s l,
      nth_error (s_values (svm_predictions b)) i = Some s ->
      nth_error (s_values (lstm_predictions b)) i = Some l ->
      exists c,
        nth_error (s_values (combined_predictions b)) i = Some c
        /\ c = np_median [s; l]
        /\ c = ((s + l) / 2)%R
        /\ (Rmin s l <= c <= Rmax s l)%R.
Proof.
  intros H. apply generate_predictions_inv in H.
  destruct H as [_ _ _ _ _ _ _ _ Hsl Hll Hc _ _ _ _ _ _].
  split; [assumption|]. intros i s l Hs Hl.
  exists ((s + l) / 2)%R. rewrite Hc, np_median_axis0_two.
  repeat split.
  - rewrite nth_error_map, nth_error_seq.
    assert (Hi : (i < length (s_values (svm_predictions b)))%nat)
      by (apply nth_error_Some; congruence).
    destruct (Nat.ltb_spec i (length (s_values (svm_predictions b)))); [|lia].
    cbn [option_map Nat.add]. f_equal.
    rewrite (nth_error_nth _ _ 0%R Hs), (nth_error_nth _ _ 0%R Hl). reflexivity.
  - symmetry. apply np_median_two.
  - apply mean_between.
  - apply mean_between.
Qed.


End Guarantees.

Lemma prediction_vectors_aligned_witness :
  exists b,
    Plain.generate_predictions k_rejected (history_of 10) = Ok b
    /\ length (s_values (svm_predictions b)) = 2%nat
    /\ length (s_values (combined_predictions b)) = 2%nat
    /\ s_index (combined_predictions b) = [8; 9]%nat.
Proof.
  destruct (@plain_run k_rejected 10 ltac:(lia) ltac:(lia)) as [b Hb].
  exists b. split; [exact Hb|].
  pose proof (prediction_vectors_aligned _ _ _ _ _ _ _ _ Hb) as H.
  cbv zeta in H. rewrite history_of_len in H.
  change (train_size_of 10) with 8%nat in H.
  destruct H as (H1 & _ & H3 & _ & _ & _ & H7 & _).
  repeat split; assumption.
Defined.

Lemma ensemble_is_median_witness :
  exists b,
    Plain.generate_predictions k_rejected (history_of 10) = Ok b
    /\ s_values (combined_predictions b)
       = np_median_axis0
           [s_values (svm_predictions b); s_values (lstm_predictions b)]
    /\ forall i s l,
        nth_error (s_values (svm_predictions b)) i = Some s ->
        nth_error (s_values (lstm_predictions b)) i = Some l ->
        exists c,
          nth_error (s_values (combined_predictions b)) i = Some c
          /\ c = np_median [s; l]
          /\ c = ((s + l) / 2)%R
          /\ (Rmin s l <= c <= Rmax s l)%R.
Proof.
  destruct (@plain_run k_rejected 10 ltac:(lia) ltac:(lia)) as [b Hb].
  exists b. split; [exact Hb|].
  exact (ensemble_is_median _ _ _ _ _ _ _ _ Hb).
Defined.



(** * Guarantees of [select_features] *)

(** C4, as the code has it: [select_features] returns exactly [k] names when
    [X] has at least [k] columns, and [min k (columns of X)] names in
    general.  It has no check of its own for fewer than [k] columns: where
    [SelectKBest] rejects such a [k] the call raises, where it only warns the
    call returns all the columns, fewer than [k]. *)
Theorem select_features_size
  (mutual_info_regression : list (list cell) -> list cell -> result (list R))
  (f_statistic : list cell -> list cell -> R) (policy : k_policy)
  (X : DataFrame) (y : Series cell) (k : nat) :
  (forall names,
     select_features mutual_info_regression f_statistic policy X y k = Ok names ->
     length names = Nat.min k (length (columns X))
     /\ ((k <= length (columns X))%nat -> length names = k)
     /\ ((length (columns X) < k)%nat ->
         policy = k_warned /\ length names = length (columns X)))
  /\ (policy = k_rejected -> (length (columns X) < k)%nat ->
      (exists e,
         select_features mutual_info_regression f_statistic policy X y k
         = Raise e)
      /\ (check_X_y X y = Ok tt ->
          is_ok (mutual_info_regression (values X) (s_values y)) = true ->
          select_features mutual_info_regression f_statistic policy X y k
          = Raise ValueError))
  /\ (check_X_y X y = Ok tt ->
      (n_neighbors < len X)%nat ->
      is_ok (mutual_info_regression (values X) (s_values y)) = true ->
      (k <= length (columns X))%nat \/ policy = k_warned ->
      exists names,
        select_features mutual_info_regression f_statistic policy X y k
        = Ok names).
Proof.
  split; [|split].
  - intros names H.
    pose proof (select_features_length _ _ _ _ _ _ H) as Hlen.
    split; [assumption|]. split; [lia|].
    intros Hlt. split; [|lia].
    apply select_features_inv in H. destruct H as (_ & _ & Hp & _).
    unfold check_params in Hp. destruct policy; [|reflexivity].
    destruct (Nat.ltb_spec (length (columns X)) k); [discriminate | lia].
  - intros -> Hlt. split.
    + destruct (select_features _ _ _ X y k) as [names|e] eqn:E; [|eauto].
      apply select_features_inv in E. destruct E as (_ & _ & Hp & _).
      unfold check_params in Hp.
      destruct (Nat.ltb_spec (length (columns X)) k); [discriminate | lia].
    + intros Hc Hmi.
      destruct (Nat.leb_spec (len X) n_neighbors) as [Hn|Hn];
        [now apply select_features_few_rows|].
      unfold select_features. rewrite Hc. cbn [bind].
      unfold check_n_neighbors.
      destruct (Nat.leb_spec (len X) n_neighbors); [lia|]. cbn [bind].
      destruct (mutual_info_regression (values X) (s_values y));
        [|discriminate].
      cbn [bind check_params].
      destruct (Nat.ltb_spec (length (columns X)) k); [reflexivity | lia].
  - intros Hc Hn Hmi Hk. eexists. apply select_features_ok; auto.
    unfold check_params. destruct Hk as [Hk| ->]; [|reflexivity].
    destruct policy; [|reflexivity].
    destruct (Nat.ltb_spec (length (columns X)) k); [lia | reflexivity].
Qed.

(** C4 as worded fails where [SelectKBest] only warns: with three candidate
    columns, four records and [k = 5] the call raises nothing and returns
    three names. *)
Lemma select_features_returns_fewer :
  exists names,
    Plain.select_features k_warned narrow_X narrow_y 5 = Ok names
    /\ length (columns narrow_X) = 3%nat
    /\ len narrow_X = 4%nat
    /\ length names = 3%nat.
Proof.
  assert (H : Plain.select_features k_warned narrow_X narrow_y 5
              = Ok (map (fun j => nth j (columns narrow_X) EmptyString)
                      (get_support
                         (f_regression Plain.f_statistic narrow_X narrow_y) 5))).
  { unfold Plain.select_features. apply select_features_ok; try reflexivity.
    unfold n_neighbors. frame_size. }
  eexists. split; [exact H|]. split; [reflexivity|]. split; [reflexivity|].
  unfold Plain.select_features in H.
  now rewrite (select_features_length _ _ _ _ _ _ H).
Qed.

(** C5: [select_features] returns the names of the columns at the support of
    the F scores, in column order: [min k (columns of X)] positions, exactly
    [k] of them when there are [k] columns, no column left out scoring higher
    than one kept.  The names do not depend on the mutual information scores:
    any other estimate that accepts the input gives the same names.  The
    target column is not among the scored columns, hence not among the names,
    and the frame reduced to the names and the target has the target as its
    last column. *)
Theorem selection_follows_f_test
  (mutual_info_regression mutual_info_regression' :
     list (list cell) -> list cell -> result (list R))
  (f_statistic : list cell -> list cell -> R) (policy : k_policy)
  (data X0 : DataFrame) (y0 : Series cell) (k : nat) (names : list string) :
  drop_columns target_column data = Ok X0 ->
  get_column target_column data = Ok y0 ->
  select_features mutual_info_regression f_statistic policy X0 y0 k = Ok names ->
  (is_ok (mutual_info_regression' (values X0) (s_values y0)) = true ->
   select_features mutual_info_regression' f_statistic policy X0 y0 k
   = Ok names)
  /\ (exists support,
        let scores := f_regression f_statistic X0 y0 in
        names = map (fun j => nth j (columns X0) EmptyString) support
        /\ length support = Nat.min k (length (columns X0))
        /\ StronglySorted lt support
        /\ (forall j, In j support -> (j < length (columns X0))%nat)
        /\ forall i j,
            In i support -> (j < length (columns X0))%nat -> ~ In j support ->
            (nth j scores 0 <= nth i scores 0)%R)
  /\ length names = Nat.min k (length (columns X0))
  /\ ((k <= length (columns X0))%nat -> length names = k)
  /\ ~ In target_column (columns X0)
  /\ ~ In target_column names
  /\ exists data',
      select_columns (names ++ [target_column]) data = Ok data'
      /\ columns data' = names ++ [target_column]
      /\ In target_column (columns data').
Proof.
  intros HX0 Hy0 Hsel.
  pose proof (select_features_incl _ _ _ _ _ _ Hsel) as Hincl.
  pose proof (select_features_length _ _ _ _ _ _ Hsel) as Hlen.
  pose proof (select_features_rows _ _ _ _ _ _ Hsel) as Hrows.
  pose proof Hsel as Hinv. apply select_features_inv in Hinv.
  destruct Hinv as (Hchk & _ & Hpar & Hnames).
  apply drop_columns_inv in HX0. destruct HX0 as [Htarget EX0].
  assert (Hno : ~ In target_column (columns X0)).
  { subst X0. cbn [columns]. intros H. apply filter_In in H.
    destruct H as [_ H]. unfold other_than in H.
    now rewrite String.eqb_refl in H. }
  split; [|split; [|split; [|split; [|split; [|split]]]]].
  - intros Hmi. rewrite Hnames. now apply select_features_ok.
  - exists (get_support (f_regression f_statistic X0 y0) k). cbv zeta.
    destruct (get_support_ascending (f_regression f_statistic X0 y0) k)
      as [Hsorted Hbound].
    rewrite f_regression_length in Hbound.
    split; [assumption|].
    split; [now rewrite get_support_length, f_regression_length|].
    split; [assumption|]. split; [assumption|].
    intros i j Hi Hj Hnj. apply get_support_best with k; auto.
    now rewrite f_regression_length.
  - assumption.
  - lia.
  - assumption.
  - intros H. apply Hno. now apply Hincl.
  - destruct (@select_columns_ok (names ++ [target_column]) data) as [d' Hd'].
    { intros c Hc. apply in_app_or in Hc. destruct Hc as [Hc|[<-|[]]]; auto.
      apply Hincl in Hc. subst X0. cbn [columns] in Hc.
      now apply filter_In in Hc. }
    exists d'. split; [assumption|].
    apply select_columns_inv in Hd'. destruct Hd' as (js & _ & ->).
    cbn [columns]. split; [reflexivity|]. apply in_or_app. right. now left.
Qed.

(** Two positions below 5, ascending, such that no position left out has a
    higher score among 0, 1, 0, 0, 1000: positions 1 and 4. *)
Lemma best_two_of_five (scores : list R) (support : list nat) :
  scores = [0; 1; 0; 0; 1000]%R ->
  length support = 2%nat ->
  StronglySorted lt support ->
  (forall j, In j support -> (j < 5)%nat) ->
  (forall i j, In i support -> (j < 5)%nat -> ~ In j support ->
     (nth j scores 0 <= nth i scores 0)%R) ->
  support = [1; 4]%nat.
Proof.
  intros -> Hlen Hsorted Hbound Hbest.
  destruct support as [|a [|b [|c l]]]; try discriminate.
  assert (Hab : (a < b)%nat).
  { inversion Hsorted as [|? ? _ Hall]; subst.
    rewrite Forall_forall in Hall. apply Hall. now left. }
  assert (Ha : (a < 5)%nat) by (apply Hbound; now left).
  assert (Hb : (b < 5)%nat) by (apply Hbound; right; now left).
  assert (H4 : b = 4%nat).
  { destruct (Nat.eq_dec b 4) as [|Hne]; [assumption|]. exfalso.
    assert (H : (nth 4 [0; 1; 0; 0; 1000] 0 <= nth b [0; 1; 0; 0; 1000] 0)%R).
    { apply Hbest; [right; now left | lia |].
      intros [H|[H|[]]]; lia. }
    do 5 (destruct b as [|b]; [simpl in H; first [lra | lia]|]). lia. }
  subst b.
  assert (H1 : a = 1%nat).
  { destruct (Nat.eq_dec a 1) as [|Hne]; [assumption|]. exfalso.
    assert (H : (nth 1 [0; 1; 0; 0; 1000] 0 <= nth a [0; 1; 0; 0; 1000] 0)%R).
    { apply Hbest; [now left | lia |].
      intros [H|[H|[]]]; lia. }
    do 4 (destruct a as [|a]; [simpl in H; first [lra | lia]|]). lia. }
  now subst a.
Qed.

Lemma selection_follows_f_test_witness :
  let data := fields (history_of 4) in
  let other_estimate := fun (_ : list (list cell)) (_ : list cell) => Ok [1%R] in
  exists X0 y0 names,
    drop_columns target_column data = Ok X0
    /\ get_column target_column data = Ok y0
    /\ select_features Plain.mutual_info_regression first_value k_rejected
         X0 y0 2 = Ok names
    /\ select_features other_estimate first_value k_rejected X0 y0 2
       = Ok names
    /\ length (columns X0) = 5%nat
    /\ names = ["High"; "Volume"]%string
    /\ ~ In target_column names
    /\ exists data',
        select_columns (names ++ [target_column]) data = Ok data'
        /\ columns data' = names ++ [target_column].
Proof.
  intros data other_estimate.
  assert (Ht : In target_column (columns data)) by (cbn; tauto).
  pose proof (@drop_columns_ok _ _ Ht) as HX0.
  set (X0 := mkDataFrame (filter _ (columns data)) (index data) _) in *.
  assert (Hy0 : get_column target_column data
                = Ok (mkSeries (index data) (column_values 3 (values data))))
    by reflexivity.
  set (y0 := mkSeries (index data) _) in *.
  assert (Hsel : select_features Plain.mutual_info_regression first_value
                   k_rejected X0 y0 2
                 = Ok (map (fun j => nth j (columns X0) EmptyString)
                         (get_support (f_regression first_value X0 y0) 2))).
  { apply select_features_ok; try reflexivity. unfold n_neighbors. frame_size. }
  set (names := map _ (get_support _ 2)) in *.
  destruct (@selection_follows_f_test Plain.mutual_info_regression
              other_estimate first_value k_rejected data X0 y0
              2 names HX0 Hy0 Hsel)
    as (Hother & (support & Hnames & Hlen & Hsorted & Hbound & Hbest)
        & _ & _ & _ & Hnot & d' & Hd' & Hcols & _).
  assert (Hscores : f_regression first_value X0 y0 = [0; 1; 0; 0; 1000]%R).
  { unfold f_regression, first_value. cbn. repeat f_equal; lra. }
  assert (Hsupport : support = [1; 4]%nat)
    by (apply (best_two_of_five Hscores); assumption).
  exists X0, y0, names.
  split; [exact HX0|]. split; [exact Hy0|]. split; [exact Hsel|].
  split; [now apply Hother|].
  split; [reflexivity|].
  split; [rewrite Hnames, Hsupport; reflexivity|].
  split; [exact Hnot|]. exists d'. auto.
Defined.

(** * The split and the dates *)

Lemma StronglySorted_kept (A B : Type) (rel : A -> A -> Prop)
  (f : A * B -> bool) (l : list A) (m : list B) :
  StronglySorted rel l ->
  StronglySorted rel (map fst (filter f (combine l m))).
Proof.
  revert m. induction l as [|a l IH]; intros m Hs; [constructor|].
  destruct m as [|b m]; [constructor|].
  inversion Hs as [|? ? Hl Ha]; subst. simpl.
  destruct (f (a, b)); [|auto]. simpl. constructor; [auto|].
  rewrite Forall_forall in *. intros x Hx. apply Ha.
  apply in_map_iff in Hx. destruct Hx as [[x' y] [<- Hx]].
  apply filter_In in Hx. destruct Hx as [Hx _]. now apply in_combine_l in Hx.
Qed.

Lemma loc_in_seq (A : Type) (vals : list A) (s label : nat) :
  (s <= label)%nat ->
  loc_in (seq s (length vals)) vals label = nth_error vals (label - s).
Proof.
  revert s. induction vals as [|v vals IH]; intros s Hs; simpl.
  - now destruct (label - s)%nat.
  - destruct (Nat.eqb_spec s label) as [->|N].
    + now rewrite Nat.sub_diag.
    + rewrite IH by lia.
      replace (label - s)%nat with (S (label - S s)) by lia. reflexivity.
Qed.


(** The labels that [clean_data] keeps ascend, and each is a label of the
    CSV. *)
Lemma kept_labels (h : PriceHistory) :
  well_formed h ->
  StronglySorted lt (index (clean_data (fields h)))
  /\ forall l, In l (index (clean_data (fields h))) ->
       (l < len (fields h))%nat.
Proof.
  intros (Hidx & _ & _). unfold clean_data, dropna. cbn [index]. split.
  - apply StronglySorted_kept. rewrite Hidx. apply StronglySorted_seq.
  - intros l Hl. apply in_map_iff in Hl. destruct Hl as [[l' r] [<- Hl]].
    apply filter_In in Hl. destruct Hl as [Hl _].
    apply in_combine_l in Hl. rewrite Hidx in Hl.
    apply in_seq in Hl. simpl. lia.
Qed.

Lemma date_of_label (h : PriceHistory) (l : nat) :
  well_formed h ->
  loc (mkSeries (index (fields h)) (Date h)) l = nth_error (Date h) l.
Proof.
  intros (Hidx & Hlen & _). unfold loc. cbn [s_index s_values].
  rewrite Hidx. unfold RangeIndex. rewrite <- Hlen.
  rewrite loc_in_seq by lia. now rewrite Nat.sub_0_r.
Qed.





Lemma gap_history_well_formed : well_formed gap_history.
Proof.
  split; [reflexivity|]. split; [reflexivity|].
  intros r Hr. cbn in Hr.
  repeat (destruct Hr as [<-|Hr]; [reflexivity|]). contradiction.
Qed.


Lemma gap_history_len : len (clean_data (fields gap_history)) = 9%nat.
Proof. reflexivity. Qed.


Lemma nth_error_seq_all (A : Type) (l : list A) :
  map (nth_error l) (seq 0 (length l)) = map Some l.
Proof.
  induction l as [|a l IH]; simpl; [reflexivity|]. f_equal.
  rewrite <- seq_shift, map_map. exact IH.
Qed.

(** When [clean_data] drops nothing, the dates of the cleaned rows are the
    [Date] column itself, so the dates that the code slices are those of the
    rows it slices. *)
Lemma row_dates_without_gaps (h : PriceHistory) :
  well_formed h ->
  (forall r, In r (values (fields h)) -> row_has_na r = false) ->
  row_dates h = map Some (Date h).
Proof.
  intros Hwf Hna. unfold row_dates.
  rewrite (map_ext _ _ (fun l => date_of_label l Hwf)).
  destruct Hwf as (Hidx & Hlen & _).
  unfold clean_data. rewrite dropna_full; auto.
  - rewrite Hidx. unfold RangeIndex. rewrite <- Hlen.
    apply nth_error_seq_all.
  - rewrite Hidx. unfold RangeIndex. now rewrite length_seq.
Qed.

Section AlignedDates.

Variable mutual_info_regression :
  list (list cell) -> list cell -> result (list R).
Variable f_statistic : list cell -> list cell -> R.
Variable policy : k_policy.
Variable SVR : Type.
Variable GridSearchCV_fit :
  list R * list R -> nat -> list (list cell) -> list cell -> SVR.
Variable SVR_predict : SVR -> list cell -> R.
Variable Sequential : Type.
Variable Sequential_fit :
  list (list (list cell)) -> list cell -> nat * nat -> Sequential.
Variable Sequential_predict : Sequential -> list (list cell) -> R.

(** On a CSV with no missing value, the dates that a run returns are the
    dates of the test rows, one per test value. *)
Lemma dates_test_without_gaps (h : PriceHistory) (b : PredictionBundle) :
  well_formed h ->
  (forall r, In r (values (fields h)) -> row_has_na r = false) ->
  generate_predictions mutual_info_regression f_statistic policy
    GridSearchCV_fit SVR_predict Sequential_fit Sequential_predict h = Ok b ->
  map Some (s_values (dates_test b))
  = skipn (train_size_of (len (clean_data (fields h)))) (row_dates h)
  /\ length (s_values (dates_test b)) = length (s_values (y_test b)).
Proof.
  intros Hwf Hna Hrun. apply generate_predictions_inv in Hrun.
  destruct Hrun as [_ _ Hd _ Hyl _ _ _ _ _ _ _ _ _ _ _ _].
  rewrite (row_dates_without_gaps Hwf Hna), Hd, Hyl.
  cbn [series_from s_values]. rewrite skipn_map. split; [reflexivity|].
  rewrite length_skipn. destruct Hwf as (Hidx & Hlen & _).
  assert (Hclean : clean_data (fields h) = fields h).
  { unfold clean_data. apply dropna_full; [|assumption].
    rewrite Hidx. unfold RangeIndex. now rewrite length_seq. }
  rewrite Hclean. unfold date in *. lia.
Qed.

End AlignedDates.

(** C1 fails on the code when [clean_data] drops a row.  Ten days, the
    first without a volume: nine rows are left, the last two of them (days 8
    and 9) are the test split, and the code returns the dates of days 7, 8
    and 9: three dates for two test rows, the first of them the date of a
    training row. *)
Theorem dates_test_after_gap :
  exists b,
    Plain.generate_predictions k_rejected gap_history = Ok b
    /\ length (s_values (y_test b)) = 2%nat
    /\ length (s_values (combined_predictions b)) = 2%nat
    /\ skipn (train_size_of (len (clean_data (fields gap_history))))
         (row_dates gap_history) = [Some 8%Z; Some 9%Z]
    /\ s_values (dates_test b) = [7%Z; 8%Z; 9%Z].
Proof.
  destruct (@generate_predictions_ok Plain.mutual_info_regression
              Plain.f_statistic k_rejected Plain.SVR Plain.GridSearchCV_fit
              Plain.SVR_predict Plain.Sequential Plain.Sequential_fit
              Plain.Sequential_predict gap_history) as [b Hb].
  - apply gap_history_well_formed.
  - cbn. tauto.
  - rewrite gap_history_len. change (train_size_of 9) with 7%nat. lia.
  - vm_compute. lia.
  - intros _. vm_compute. lia.
  - reflexivity.
  - exists b. split; [exact Hb|].
    apply generate_predictions_inv in Hb.
    destruct Hb as [_ _ Hd _ Hyl _ _ _ Hsl _ Hc _ _ _ _ _ _].
    rewrite gap_history_len in *. change (train_size_of 9) with 7%nat in *.
    repeat split.
    + exact Hyl.
    + rewrite Hc, np_median_axis0_length, Hsl. exact Hyl.
    + now rewrite Hd.
Qed.

(** * Further properties *)

(** ** The size of the test segment *)

(** X1: the test segment of a series of [n] rows, [0 < n < 2^49], has
    [ceil (n / 5)] rows, at least one, and the training segment the other
    [floor (4 n / 5)]. *)
Theorem test_segment_size (n : nat) :
  (0 < n)%nat -> (Z.of_nat n < 2 ^ 49)%Z ->
  (n - train_size_of n = (n + 4) / 5)%nat
  /\ (1 <= n - train_size_of n)%nat
  /\ (train_size_of n + (n - train_size_of n) = n)%nat.
Proof.
  intros H0 Hn. rewrite train_size_of_floor by assumption.
  pose proof (Nat.div_mod_eq (4 * n) 5) as H4.
  pose proof (Nat.mod_upper_bound (4 * n) 5 ltac:(lia)) as H4b.
  pose proof (Nat.div_mod_eq (n + 4) 5) as H5.
  pose proof (Nat.mod_upper_bound (n + 4) 5 ltac:(lia)) as H5b.
  lia.
Qed.

Lemma test_segment_size_witness :
  (0 < 24)%nat /\ (Z.of_nat 24 < 2 ^ 49)%Z
  /\ (24 - train_size_of 24 = (24 + 4) / 5)%nat
  /\ (1 <= 24 - train_size_of 24)%nat
  /\ (train_size_of 24 + (24 - train_size_of 24) = 24)%nat.
Proof.
  split; [lia|]. split; [lia|]. apply test_segment_size; lia.
Defined.

(** ** When a run returns *)

Section Returns.

Variable mutual_info_regression :
  list (list cell) -> list cell -> result (list R).
Variable f_statistic : list cell -> list cell -> R.
Variable policy : k_policy.
Variable SVR : Type.
Variable GridSearchCV_fit :
  list R * list R -> nat -> list (list cell) -> list cell -> SVR.
Variable SVR_predict : SVR -> list cell -> R.
Variable Sequential : Type.
Variable Sequential_fit :
  list (list (list cell)) -> list cell -> nat * nat -> Sequential.
Variable Sequential_predict : Sequential -> list (list cell) -> R.

Local Abbreviation run :=
  (generate_predictions mutual_info_regression f_statistic policy
     GridSearchCV_fit SVR_predict Sequential_fit Sequential_predict).

(** X2: a CSV that [clean_data] leaves without a record (it is empty, or
    every record has a missing value), or one with no numeric column, makes
    the run raise [ValueError]: the scaler refuses the empty array. *)
Theorem empty_series_raises_ValueError (h : PriceHistory) :
  len (clean_data (fields h)) = 0%nat \/ columns (fields h) = [] ->
  run h = Raise ValueError.
Proof.
  intros H. unfold generate_predictions, normalize_data.
  destruct H as [H|H].
  - rewrite H. reflexivity.
  - change (columns (clean_data (fields h))) with (columns (fields h)).
    rewrite H. cbn [length Nat.eqb]. rewrite orb_true_r. reflexivity.
Qed.

(** X3: a CSV with a complete record and a numeric column but no [Close]
    column makes the run raise [KeyError]. *)
Theorem missing_target_raises_KeyError (h : PriceHistory) :
  (0 < len (clean_data (fields h)))%nat ->
  columns (fields h) <> [] ->
  ~ In target_column (columns (fields h)) ->
  run h = Raise KeyError.
Proof.
  intros Hn Hc Ht. unfold generate_predictions.
  rewrite normalize_data_ok.
  - cbn [bind]. unfold drop_columns.
    destruct (has_column target_column _) eqn:E; [|reflexivity].
    apply has_column_In in E. cbn [columns] in E.
    change (columns (clean_data (fields h))) with (columns (fields h)) in E.
    contradiction.
  - exact Hn.
  - change (columns (clean_data (fields h))) with (columns (fields h)).
    destruct (columns (fields h)); [contradiction | simpl; lia].
Qed.

(** What a run that returns says of the columns. *)
Lemma generate_predictions_inv_columns (h : PriceHistory) (b : PredictionBundle) :
  run h = Ok b ->
  In target_column (columns (fields h))
  /\ (0 < length (candidate_columns (fields h)))%nat
  /\ (policy = k_rejected ->
      (num_features <= length (candidate_columns (fields h)))%nat).
Proof.
  unfold generate_predictions. intros H.
  apply bind_ok_inv in H. destruct H as ([d1 scaler] & Hnorm & H).
  apply bind_ok_inv in H. destruct H as (X0 & HX0 & H).
  apply bind_ok_inv in H. destruct H as (y0 & Hy0 & H).
  apply bind_ok_inv in H. destruct H as (sel & Hsel & _).
  apply normalize_data_inv in Hnorm. destruct Hnorm as (_ & _ & _ & Ed1).
  assert (Hc1 : columns d1 = columns (fields h)) by (subst d1; reflexivity).
  apply drop_columns_inv in HX0. destruct HX0 as [Ht EX0].
  assert (HcX0 : columns X0 = candidate_columns (fields h)).
  { subst X0. cbn [columns]. now rewrite Hc1. }
  apply select_features_inv in Hsel. destruct Hsel as (Hchk & _ & Hpar & _).
  apply check_X_y_inv in Hchk. destruct Hchk as (_ & Hcols & _).
  rewrite HcX0 in Hcols, Hpar. rewrite Hc1 in Ht.
  split; [assumption|]. split; [assumption|].
  intros ->. unfold check_params in Hpar.
  destruct (Nat.ltb_spec (length (candidate_columns (fields h))) num_features);
    [discriminate | assumption].
Qed.

(** X4: on a CSV with one cell per column in every record, and with a mutual
    information estimate that accepts every input, the run returns a bundle
    exactly when the frame has its [Close] column and another column (five of
    them where [SelectKBest] rejects a [k] above the number of columns), the
    training segment has five rows and a test row is left. *)
Theorem generate_predictions_returns_iff (h : PriceHistory) :
  (forall r, In r (values (fields h)) ->
     length r = length (columns (fields h))) ->
  (forall X y, is_ok (mutual_info_regression X y) = true) ->
  (exists b, run h = Ok b)
  <-> (In target_column (columns (fields h))
       /\ (0 < length (candidate_columns (fields h)))%nat
       /\ (policy = k_rejected ->
           (num_features <= length (candidate_columns (fields h)))%nat)
       /\ (5 <= train_size_of (len (clean_data (fields h)))
           < len (clean_data (fields h)))%nat).
Proof.
  intros Hrect Hmi. split.
  - intros [b Hb].
    destruct (@generate_predictions_inv_columns h b Hb) as (Ht & Hc & Hp).
    apply generate_predictions_inv in Hb.
    destruct Hb as [Htrain Htest _ _ _ _ _ _ _ _ _ _ _ _ _ _ _].
    repeat split; auto.
  - intros (Ht & Hc & Hp & Hs). now apply generate_predictions_ok.
Qed.

End Returns.

Lemma empty_series_raises_ValueError_witness :
  (len (clean_data (fields (history_of 0))) = 0%nat
   \/ columns (fields (history_of 0)) = [])
  /\ Plain.generate_predictions k_warned (history_of 0) = Raise ValueError.
Proof.
  assert (H : len (clean_data (fields (history_of 0))) = 0%nat
              \/ columns (fields (history_of 0)) = [])
    by (left; reflexivity).
  split; [exact H|].
  exact (@empty_series_raises_ValueError Plain.mutual_info_regression
           Plain.f_statistic k_warned Plain.SVR Plain.GridSearchCV_fit
           Plain.SVR_predict Plain.Sequential Plain.Sequential_fit
           Plain.Sequential_predict
           (history_of 0) H).
Defined.

Lemma missing_target_raises_KeyError_witness :
  let h := mkPriceHistory [0%Z] narrow_X in
  (0 < len (clean_data (fields h)))%nat
  /\ columns (fields h) <> []
  /\ ~ In target_column (columns (fields h))
  /\ Plain.generate_predictions k_warned h = Raise KeyError.
Proof.
  intros h.
  assert (H1 : (0 < len (clean_data (fields h)))%nat) by (vm_compute; lia).
  assert (H2 : columns (fields h) <> []) by discriminate.
  assert (H3 : ~ In target_column (columns (fields h))).
  { cbn. intros [H|[H|[H|[]]]]; discriminate. }
  split; [exact H1|]. split; [exact H2|]. split; [exact H3|].
  exact (@missing_target_raises_KeyError Plain.mutual_info_regression
           Plain.f_statistic k_warned Plain.SVR Plain.GridSearchCV_fit
           Plain.SVR_predict Plain.Sequential Plain.Sequential_fit
           Plain.Sequential_predict
           h H1 H2 H3).
Defined.

Lemma generate_predictions_returns_iff_witness :
  (exists b, Plain.generate_predictions k_rejected (history_of 7) = Ok b)
  <-> (In target_column (columns (fields (history_of 7)))
       /\ (0 < length (candidate_columns (fields (history_of 7))))%nat
       /\ (k_rejected = k_rejected ->
           (num_features
            <= length (candidate_columns (fields (history_of 7))))%nat)
       /\ (5 <= train_size_of (len (clean_data (fields (history_of 7))))
           < len (clean_data (fields (history_of 7))))%nat).
Proof.
  apply (@generate_predictions_returns_iff Plain.mutual_info_regression
           Plain.f_statistic k_rejected Plain.SVR Plain.GridSearchCV_fit
           Plain.SVR_predict Plain.Sequential Plain.Sequential_fit
           Plain.Sequential_predict (history_of 7)).
  - apply history_of_rows.
  - reflexivity.
Defined.

(** ** More on [normalize_data] *)










(** ** More on [select_features] *)

Lemma map_nth_seq (A : Type) (l : list A) (d : A) :
  map (fun j => nth j l d) (seq 0 (length l)) = l.
Proof.
  induction l as [|a l IH]; simpl; [reflexivity|]. f_equal.
  rewrite <- seq_shift, map_map. exact IH.
Qed.

Lemma get_support_all (scores : list R) (k : nat) :
  (0 < k)%nat -> (length scores <= k)%nat ->
  get_support scores k = seq 0 (length scores).
Proof.
  intros Hk Hn. unfold get_support.
  destruct (Nat.eqb_spec k 0); [lia|].
  apply forallb_filter_id. apply forallb_forall. intros i Hi.
  apply mem_In. unfold last_k.
  rewrite (Permutation_length (argsort_perm scores)), length_seq.
  replace (length scores - k)%nat with 0%nat by lia. cbn [skipn].
  apply (Permutation_in _ (Permutation_sym (argsort_perm scores)) Hi).
Qed.

Section MoreSelectFeatures.

Variable mutual_info_regression :
  list (list cell) -> list cell -> result (list R).
Variable f_statistic : list cell -> list cell -> R.
Variable policy : k_policy.

(** X7: the names that [select_features] returns are columns of [X] listed
    in the order of the columns of [X], not in the order of their scores;
    when the column names of [X] are distinct, so are the names returned. *)
Theorem select_features_in_column_order (X : DataFrame) (y : Series cell)
  (k : nat) (names : list string) :
  select_features mutual_info_regression f_statistic policy X y k = Ok names ->
  exists positions,
    StronglySorted lt positions
    /\ (forall j, In j positions -> (j < length (columns X))%nat)
    /\ names = map (fun j => nth j (columns X) EmptyString) positions
    /\ (NoDup (columns X) -> NoDup names).
Proof.
  intros H. apply select_features_inv in H. destruct H as (_ & _ & _ & ->).
  set (scores := f_regression f_statistic X y).
  destruct (get_support_ascending scores k) as [Hs Hlt].
  assert (Hlt' : forall j, In j (get_support scores k) ->
                           (j < length (columns X))%nat).
  { intros j Hj. apply Hlt in Hj. unfold scores in Hj.
    now rewrite f_regression_length in Hj. }
  exists (get_support scores k).
  split; [assumption|]. split; [assumption|]. split; [reflexivity|].
  intros Hnd. apply NoDup_map_NoDup_ForallPairs.
  - intros i j Hi Hj E.
    apply (proj1 (NoDup_nth (columns X) EmptyString) Hnd); auto.
  - now apply StronglySorted_lt_NoDup.
Qed.

(** X8: when [X] has no more than [k] columns and [select_features]
    returns, it returns every column of [X], whatever the scores: with the
    five candidate columns of the CSV and [k = 5] nothing is selected out. *)
Theorem select_features_keeps_all (X : DataFrame) (y : Series cell) (k : nat)
  (names : list string) :
  select_features mutual_info_regression f_statistic policy X y k = Ok names ->
  (length (columns X) <= k)%nat ->
  names = columns X.
Proof.
  intros H Hk. apply select_features_inv in H.
  destruct H as (Hchk & _ & _ & ->).
  apply check_X_y_inv in Hchk. destruct Hchk as (_ & Hcols & _).
  rewrite get_support_all.
  - rewrite f_regression_length. apply map_nth_seq.
  - lia.
  - now rewrite f_regression_length.
Qed.

End MoreSelectFeatures.

Lemma narrow_select (k : nat) :
  Plain.select_features k_warned narrow_X narrow_y k
  = Ok (map (fun j => nth j (columns narrow_X) EmptyString)
          (get_support (f_regression Plain.f_statistic narrow_X narrow_y) k)).
Proof.
  unfold Plain.select_features. apply select_features_ok; try reflexivity.
  unfold n_neighbors. frame_size.
Qed.

Lemma select_features_in_column_order_witness :
  exists names positions,
    Plain.select_features k_warned narrow_X narrow_y 2 = Ok names
    /\ StronglySorted lt positions
    /\ (forall j, In j positions -> (j < length (columns narrow_X))%nat)
    /\ names = map (fun j => nth j (columns narrow_X) EmptyString) positions
    /\ (NoDup (columns narrow_X) -> NoDup names).
Proof.
  pose proof (narrow_select 2) as H. unfold Plain.select_features in H.
  destruct (@select_features_in_column_order _ _ _ _ _ _ _ H)
    as [positions Hp].
  eexists; exists positions. split; [exact (narrow_select 2) | exact Hp].
Defined.

Lemma select_features_keeps_all_witness :
  exists names,
    Plain.select_features k_warned narrow_X narrow_y 5 = Ok names
    /\ (length (columns narrow_X) <= 5)%nat
    /\ names = columns narrow_X.
Proof.
  pose proof (narrow_select 5) as H. unfold Plain.select_features in H.
  assert (Hk : (length (columns narrow_X) <= 5)%nat) by (cbn; lia).
  eexists. split; [exact (narrow_select 5)|]. split; [exact Hk|].
  exact (@select_features_keeps_all _ _ _ _ _ _ _ H Hk).
Defined.

(** ** The errors of the ensemble *)

Local Open Scope R_scope.










Local Close Scope R_scope.

Section EnsembleErrors.

Variable mutual_info_regression :
  list (list cell) -> list cell -> result (list R).
Variable f_statistic : list cell -> list cell -> R.
Variable policy : k_policy.
Variable SVR : Type.
Variable GridSearchCV_fit :
  list R * list R -> nat -> list (list cell) -> list cell -> SVR.
Variable SVR_predict : SVR -> list cell -> R.
Variable Sequential : Type.
Variable Sequential_fit :
  list (list (list cell)) -> list cell -> nat * nat -> Sequential.
Variable Sequential_predict : Sequential -> list (list cell) -> R.


End EnsembleErrors.


(** ** The chart of a run *)

Lemma filter_length_lt (A : Type) (f : A -> bool) (l : list A) (a : A) :
  In a l -> f a = false -> (length (filter f l) < length l)%nat.
Proof.
  induction l as [|x l IH]; simpl; [contradiction|].
  intros [->|Hin] Hf.
  - rewrite Hf. pose proof (filter_length_le f l). lia.
  - specialize (IH Hin Hf). destruct (f x); simpl; lia.
Qed.

Lemma in_combine_right (A B : Type) (l : list A) (m : list B) (b : B) :
  length l = length m -> In b m -> exists a, In (a, b) (combine l m).
Proof.
  revert m. induction l as [|x l IH]; intros [|y m] Hl Hb; try discriminate;
    simpl in *; [contradiction|].
  destruct Hb as [->|Hb]; [eauto|].
  destruct (IH m ltac:(lia) Hb) as [a Ha]. eauto.
Qed.

(** A record with a missing value makes the cleaned frame shorter. *)
Lemma clean_data_shorter (h : PriceHistory) (r : list cell) :
  well_formed h -> In r (values (fields h)) -> row_has_na r = true ->
  (len (clean_data (fields h)) < len (fields h))%nat.
Proof.
  intros (Hidx & _ & _) Hr Hna.
  assert (Hl : length (index (fields h)) = length (values (fields h))).
  { rewrite Hidx. unfold RangeIndex. now rewrite length_seq. }
  destruct (@in_combine_right _ _ _ _ _ Hl Hr) as [i Hi].
  unfold clean_data, dropna, len. cbn [values]. rewrite length_map.
  eapply Nat.lt_le_trans.
  - apply (@filter_length_lt _ keep_row _ _ Hi).
    unfold keep_row. cbn [snd]. now rewrite Hna.
  - rewrite length_combine. lia.
Qed.

Lemma ax_plot_ok (ax : Figure) (x : list date) (y : list cell) (label : string) :
  length x = length y ->
  ax_plot ax x y label
  = Ok (mkFigure (fig_lines ax ++ [mkLine label x y]) (fig_title ax)
          (fig_xlabel ax) (fig_ylabel ax) (fig_legend ax)).
Proof.
  intros H. unfold ax_plot. now rewrite (proj2 (Nat.eqb_eq _ _) H).
Qed.

Section Chart.

Variable mutual_info_regression :
  list (list cell) -> list cell -> result (list R).
Variable f_statistic : list cell -> list cell -> R.
Variable policy : k_policy.
Variable SVR : Type.
Variable GridSearchCV_fit :
  list R * list R -> nat -> list (list cell) -> list cell -> SVR.
Variable SVR_predict : SVR -> list cell -> R.
Variable Sequential : Type.
Variable Sequential_fit :
  list (list (list cell)) -> list cell -> nat * nat -> Sequential.
Variable Sequential_predict : Sequential -> list (list cell) -> R.

Local Abbreviation run :=
  (generate_predictions mutual_info_regression f_statistic policy
     GridSearchCV_fit SVR_predict Sequential_fit Sequential_predict).

(** X10: after a run on a CSV with no missing value, [plot_forecast] draws
    the chart: four lines, the actual values and the SVM, LSTM and combined
    predictions in this order, each over the dates of the test rows, one
    point per date. *)
Theorem plot_forecast_without_gaps (h : PriceHistory) (b : PredictionBundle) :
  well_formed h ->
  (forall r, In r (values (fields h)) -> row_has_na r = false) ->
  run h = Ok b ->
  exists fig,
    plot_bundle b = Ok fig
    /\ fig_lines fig
       = [mkLine "Precio Real" (s_values (dates_test b)) (s_values (y_test b));
          mkLine "Predicciones SVM" (s_values (dates_test b))
            (map Some (s_values (svm_predictions b)));
          mkLine "Predicciones LSTM" (s_values (dates_test b))
            (map Some (s_values (lstm_predictions b)));
          mkLine "Predicciones Combinadas" (s_values (dates_test b))
            (map Some (s_values (combined_predictions b)))]
    /\ (forall l, In l (fig_lines fig) -> length (line_y l) = length (line_x l))
    /\ map Some (s_values (dates_test b))
       = skipn (train_size_of (len (clean_data (fields h)))) (row_dates h).
Proof.
  intros Hwf Hna Hrun.
  destruct (@dates_test_without_gaps _ _ _ _ _ _ _ _ _ _ _ Hwf Hna Hrun)
    as [Hdates Hlen].
  apply generate_predictions_inv in Hrun.
  destruct Hrun as [_ _ _ _ _ _ _ _ Hsl Hll Hc _ _ _ _ _ _].
  assert (Hcl : length (s_values (combined_predictions b))
                = length (s_values (y_test b)))
    by (rewrite Hc, np_median_axis0_length; exact Hsl).
  unfold plot_bundle, plot_forecast.
  rewrite ax_plot_ok by exact Hlen. cbn [bind].
  rewrite ax_plot_ok by (rewrite length_map; congruence). cbn [bind].
  rewrite ax_plot_ok by (rewrite length_map; congruence). cbn [bind].
  rewrite ax_plot_ok by (rewrite length_map; congruence). cbn [bind].
  eexists. split; [reflexivity|]. cbn [fig_lines subplots app].
  split; [reflexivity|]. split; [|exact Hdates].
  intros l [<-|[<-|[<-|[<-|[]]]]]; cbn [line_x line_y];
    rewrite ?length_map; congruence.
Qed.

(** X11: after a run on a CSV in which [clean_data] dropped a record,
    [plot_forecast] raises [ValueError]: the dates handed to it are one per
    record of the CSV from the split position on, more than the test values
    to plot against them. *)
Theorem plot_forecast_after_dropped_row (h : PriceHistory)
  (b : PredictionBundle) :
  well_formed h ->
  (exists r, In r (values (fields h)) /\ row_has_na r = true) ->
  run h = Ok b ->
  plot_bundle b = Raise ValueError
  /\ (length (s_values (y_test b)) < length (s_values (dates_test b)))%nat.
Proof.
  intros Hwf [r [Hr Hna]] Hrun.
  pose proof (@clean_data_shorter _ _ Hwf Hr Hna) as Hshort.
  destruct Hwf as (_ & HD & _).
  apply generate_predictions_inv in Hrun.
  destruct Hrun as [_ Htest Hd _ Hyl _ _ _ _ _ _ _ _ _ _ _ _].
  assert (Hlt : (length (s_values (y_test b))
                 < length (s_values (dates_test b)))%nat).
  { rewrite Hd, Hyl. cbn [series_from s_values]. rewrite length_skipn.
    unfold date in *. lia. }
  split; [|exact Hlt].
  unfold plot_bundle, plot_forecast, ax_plot.
  destruct (Nat.eqb_spec (length (s_values (dates_test b)))
              (length (s_values (y_test b)))); [lia | reflexivity].
Qed.

End Chart.

Lemma history_of_well_formed (n : nat) : well_formed (history_of n).
Proof.
  split; [|split].
  - unfold len. cbn [history_of fields index values]. unfold RangeIndex.
    now rewrite length_map, length_seq.
  - unfold len. cbn [history_of fields Date values].
    now rewrite !length_map.
  - apply history_of_rows.
Qed.

Lemma history_of_complete (n : nat) (r : list cell) :
  In r (values (fields (history_of n))) -> row_has_na r = false.
Proof.
  cbn [history_of fields values]. intros Hr.
  apply in_map_iff in Hr. destruct Hr as [i [<- _]]. reflexivity.
Qed.

Lemma plot_forecast_without_gaps_witness :
  exists b fig,
    Plain.generate_predictions k_rejected (history_of 10) = Ok b
    /\ plot_bundle b = Ok fig
    /\ map line_label (fig_lines fig)
       = ["Precio Real"; "Predicciones SVM"; "Predicciones LSTM";
          "Predicciones Combinadas"]%string
    /\ (forall l, In l (fig_lines fig) -> length (line_y l) = length (line_x l)).
Proof.
  destruct (@plain_run k_rejected 10 ltac:(lia) ltac:(lia)) as [b Hb].
  destruct (@plot_forecast_without_gaps Plain.mutual_info_regression
              Plain.f_statistic k_rejected Plain.SVR Plain.GridSearchCV_fit
              Plain.SVR_predict Plain.Sequential Plain.Sequential_fit
              Plain.Sequential_predict _ _
              (history_of_well_formed 10) (@history_of_complete 10) Hb)
    as (fig & Hfig & Hlines & Hlen & _).
  exists b, fig. split; [exact Hb|]. split; [exact Hfig|].
  split; [now rewrite Hlines | exact Hlen].
Defined.

Lemma plot_forecast_after_dropped_row_witness :
  exists b,
    Plain.generate_predictions k_rejected gap_history = Ok b
    /\ plot_bundle b = Raise ValueError
    /\ (length (s_values (y_test b)) < length (s_values (dates_test b)))%nat.
Proof.
  destruct (@generate_predictions_ok Plain.mutual_info_regression
              Plain.f_statistic k_rejected Plain.SVR Plain.GridSearchCV_fit
              Plain.SVR_predict Plain.Sequential Plain.Sequential_fit
              Plain.Sequential_predict gap_history) as [b Hb].
  - apply gap_history_well_formed.
  - cbn. tauto.
  - rewrite gap_history_len. change (train_size_of 9) with 7%nat. lia.
  - vm_compute. lia.
  - intros _. vm_compute. lia.
  - reflexivity.
  - exists b. split; [exact Hb|].
    apply (@plot_forecast_after_dropped_row Plain.mutual_info_regression
              Plain.f_statistic k_rejected Plain.SVR Plain.GridSearchCV_fit
              Plain.SVR_predict Plain.Sequential Plain.Sequential_fit
              Plain.Sequential_predict _ _
             gap_history_well_formed); [|exact Hb].
    exists gap_row. split; [now left | reflexivity].
Defined.

(** ** The units of the ground truth *)



Section GroundTruth.

Variable mutual_info_regression :
  list (list cell) -> list cell -> result (list R).
Variable f_statistic : list cell -> list cell -> R.
Variable policy : k_policy.
Variable SVR : Type.
Variable GridSearchCV_fit :
  list R * list R -> nat -> list (list cell) -> list cell -> SVR.
Variable SVR_predict : SVR -> list cell -> R.
Variable Sequential : Type.
Variable Sequential_fit :
  list (list (list cell)) -> list cell -> nat * nat -> Sequential.
Variable Sequential_predict : Sequential -> list (list cell) -> R.

Local Abbreviation run :=
  (generate_predictions mutual_info_regression f_statistic policy
     GridSearchCV_fit SVR_predict Sequential_fit Sequential_predict).



End GroundTruth.


(** ** The percentage error at a target of 0 *)

Local Open Scope R_scope.





Local Close Scope R_scope.


(** ** The labels that [clean_data] keeps *)

Lemma in_combine_seq_nth (A : Type) (l : list A) (s i : nat) (x : A) :
  In (i, x) (combine (seq s (length l)) l) ->
  nth_error l (i - s) = Some x /\ (s <= i)%nat.
Proof.
  revert s. induction l as [|a l IH]; intros s; simpl; [contradiction|].
  intros [H|H].
  - injection H as <- <-. rewrite Nat.sub_diag. split; [reflexivity | lia].
  - apply IH in H. destruct H as [H Hle].
    replace (i - s)%nat with (S (i - S s)) by lia. split; [exact H | lia].
Qed.

(** X14: [clean_data] keeps the records in the order of the CSV and under
    their labels: the labels left ascend, and the record left at a position
    is the complete record that the CSV holds under the label left at that
    position. *)
Theorem clean_data_keeps_labels (h : PriceHistory) :
  well_formed h ->
  StronglySorted lt (index (clean_data (fields h)))
  /\ length (index (clean_data (fields h))) = len (clean_data (fields h))
  /\ forall i l r,
      nth_error (index (clean_data (fields h))) i = Some l ->
      nth_error (values (clean_data (fields h))) i = Some r ->
      nth_error (values (fields h)) l = Some r /\ row_has_na r = false.
Proof.
  intros Hwf. split; [apply (proj1 (kept_labels Hwf))|].
  destruct Hwf as (Hidx & _ & _).
  unfold clean_data, dropna, len. cbn [index values].
  split; [now rewrite !length_map|].
  intros i l r Hl Hr. rewrite nth_error_map in Hl, Hr.
  destruct (nth_error (filter keep_row _) i) as [[l' r']|] eqn:E;
    [|discriminate].
  cbn [option_map fst snd] in Hl, Hr.
  apply Some_inj in Hl, Hr. subst l' r'.
  apply nth_error_In, filter_In in E. destruct E as [Hin Hk].
  split.
  - rewrite Hidx in Hin. unfold RangeIndex, len in Hin.
    apply in_combine_seq_nth in Hin. destruct Hin as [Hin _].
    now rewrite Nat.sub_0_r in Hin.
  - unfold keep_row in Hk. cbn [snd] in Hk. now apply negb_true_iff in Hk.
Qed.

Lemma clean_data_keeps_labels_witness :
  nth_error (index (clean_data (fields gap_history))) 0 = Some 1%nat
  /\ StronglySorted lt (index (clean_data (fields gap_history)))
  /\ forall i l r,
      nth_error (index (clean_data (fields gap_history))) i = Some l ->
      nth_error (values (clean_data (fields gap_history))) i = Some r ->
      nth_error (values (fields gap_history)) l = Some r
      /\ row_has_na r = false.
Proof.
  destruct (clean_data_keeps_labels gap_history_well_formed) as (Hs & _ & Hr).
  split; [reflexivity|]. split; [exact Hs | exact Hr].
Defined.
